(** * DASF toolbox: statistics utilities, LCMV/MMSE problems, LCMV data retriever

    A shallow embedding of
      - [dasftoolbox/utils.py],
      - [dasftoolbox/optimization_problems/lcmv_problem.py],
      - [dasftoolbox/optimization_problems/mmse_problem.py],
      - [dasftoolbox/data_retrievers/lcmv_data_retriever.py],
      - the legacy [data_retriever.py],
    over MathComp matrices.

    Modelling conventions.
      - A float64 is an element of an ordered field [F] (exact arithmetic);
        division by zero, which numpy answers with inf/nan and a warning, is
        MathComp's [x / 0 = 0].  No statement below relies on it.
      - A numpy array is an [ndarray]: 0-d, 1-d or 2-d, with its shape known
        only at run time.  An operation whose operand shapes do not fit
        raises, as numpy does; exceptions are the [Raise] results.
      - Counts handed to numpy as sizes ([nb_windows], [nb_sensors], ...)
        are [nat]; indices that Python lets be negative are [int].
      - numpy's random generator and [np.sqrt] are parameters. *)

From HB Require Import structures.
From mathcomp Require Import ssreflect ssrfun ssrbool eqtype ssrnat seq div.
From mathcomp Require Import choice fintype bigop order.
From mathcomp Require Import ssralg ssrnum ssrint rat matrix mxalgebra.

Set Implicit Arguments.
Unset Strict Implicit.
Unset Printing Implicit Defensive.

Import Order.TTheory GRing.Theory Num.Theory.
Local Open Scope ring_scope.

(** ** Python exceptions as results *)

Inductive error : Type :=
  | IndexError    (* sequence index out of range *)
  | ValueError    (* operand shapes do not fit *)
  | AxisError     (* axis out of bounds for the array's dimension *)
  | LinAlgError.  (* not square, or singular *)

Inductive result (T : Type) : Type :=
  | Ok of T
  | Raise of error.

Arguments Ok {T} _.
Arguments Raise {T} _.

Definition bind {T U : Type} (r : result T) (k : T -> result U) : result U :=
  match r with
  | Ok x => k x
  | Raise e => Raise e
  end.

Notation "'do' x <-- r ; k" := (bind r (fun x => k))
  (at level 200, x name, r at level 100, k at level 200,
   format "'[v' 'do'  x  <--  r ; '/' k ']'").

Definition is_ok {T : Type} (r : result T) : bool :=
  if r is Ok _ then true else false.

(** ** The numpy fragment used by the toolbox *)

Module Numpy.
Section WithField.

Variable F : realFieldType.

Inductive ndarray : Type :=
  | Scalar of F
  | Vector of seq F
  | Matrix (m n : nat) of 'M[F]_(m, n).

(** Entry of a matrix at run-time indices (0 outside the matrix). *)
Definition mxnth (m n : nat) (A : 'M[F]_(m, n)) (i j : nat) : F :=
  match (insub i : option 'I_m), (insub j : option 'I_n) with
  | Some i', Some j' => A i' j'
  | _, _ => 0
  end.

Definition np_ndim (a : ndarray) : nat :=
  match a with
  | Scalar _ => 0
  | Vector _ => 1
  | Matrix _ _ _ => 2
  end.

Definition np_shape (a : ndarray) : seq nat :=
  match a with
  | Scalar _ => [::]
  | Vector s => [:: size s]
  | Matrix m n _ => [:: m; n]
  end.

(** [a.T]: transposes a 2-d array and leaves 0-d and 1-d arrays alone. *)
Definition np_T (a : ndarray) : ndarray :=
  match a with
  | Matrix _ _ A => Matrix A^T
  | _ => a
  end.

(** [a @ b]. *)
Definition np_matmul (a b : ndarray) : result ndarray :=
  match a, b with
  | Matrix m n A, Matrix n' p B =>
      if n == n'
      then Ok (Matrix (\matrix_(i < m, k < p)
                         \sum_(j < n) A i j * mxnth B j k))
      else Raise ValueError
  | Vector u, Vector v =>
      if size u == size v
      then Ok (Scalar (\sum_(j < size u) nth 0 u j * nth 0 v j))
      else Raise ValueError
  | Matrix m n A, Vector v =>
      if n == size v
      then Ok (Vector (mkseq (fun i => \sum_(j < n) mxnth A i j * nth 0 v j) m))
      else Raise ValueError
  | Vector u, Matrix m p B =>
      if size u == m
      then Ok (Vector (mkseq (fun k => \sum_(j < m) nth 0 u j * mxnth B j k) p))
      else Raise ValueError
  | _, _ => Raise ValueError
  end.

(** Broadcasting of an elementwise binary operation: shapes are aligned on
    the right and padded with 1 on the left; along each axis the lengths
    agree or one of them is 1, which is then stretched. *)
Definition nrows (a : ndarray) : nat :=
  if a is Matrix m _ _ then m else 1.

Definition ncols (a : ndarray) : nat :=
  match a with
  | Scalar _ => 1
  | Vector s => size s
  | Matrix _ n _ => n
  end.

Definition item2 (a : ndarray) (i j : nat) : F :=
  match a with
  | Scalar x => x
  | Vector s => nth 0 s j
  | Matrix _ _ A => mxnth A i j
  end.

Definition bdim (d1 d2 : nat) : option nat :=
  if d1 == d2 then Some d1
  else if d1 == 1%N then Some d2
  else if d2 == 1%N then Some d1
  else None.

Definition bidx (d i : nat) : nat := if d == 1%N then 0%N else i.

Definition of_2d (ndim : nat) (m n : nat) (A : 'M[F]_(m, n)) : ndarray :=
  match ndim with
  | 0 => Scalar (mxnth A 0 0)
  | 1 => Vector (mkseq (fun j => mxnth A 0 j) n)
  | _ => Matrix A
  end.

Definition broadcast (f : F -> F -> F) (a b : ndarray) : result ndarray :=
  match bdim (nrows a) (nrows b), bdim (ncols a) (ncols b) with
  | Some m, Some n =>
      Ok (of_2d (maxn (np_ndim a) (np_ndim b))
            (\matrix_(i < m, j < n)
               f (item2 a (bidx (nrows a) i) (bidx (ncols a) j))
                 (item2 b (bidx (nrows b) i) (bidx (ncols b) j))))
  | _, _ => Raise ValueError
  end.

Definition np_add : ndarray -> ndarray -> result ndarray := broadcast +%R.
Definition np_sub : ndarray -> ndarray -> result ndarray :=
  broadcast (fun x y => x - y).
Definition np_mul : ndarray -> ndarray -> result ndarray := broadcast *%R.
Definition np_div : ndarray -> ndarray -> result ndarray :=
  broadcast (fun x y => x / y).

(** Elementwise map; an array combined with a Python number never raises. *)
Definition np_map (f : F -> F) (a : ndarray) : ndarray :=
  match a with
  | Scalar x => Scalar (f x)
  | Vector s => Vector (map f s)
  | Matrix _ _ A => Matrix (map_mx f A)
  end.

Definition np_mul_num (a : ndarray) (c : F) : ndarray := np_map ( *%R^~ c) a.
Definition np_num_mul (c : F) (a : ndarray) : ndarray := np_map ( *%R c) a.
Definition np_div_num (a : ndarray) (c : F) : ndarray := np_map (fun x => x / c) a.

(** [np.size(a, 1)]. *)
Definition np_size1 (a : ndarray) : result nat :=
  if a is Matrix _ n _ then Ok n else Raise IndexError.

(** [np.mean(a, axis=1)], [np.mean(a, axis=1, keepdims=True)] and
    [np.var(a, axis=1)] (population variance). *)
Definition row_mean (m n : nat) (A : 'M[F]_(m, n)) (i : nat) : F :=
  (\sum_(j < n) mxnth A i j) / n%:R.

Definition row_var (m n : nat) (A : 'M[F]_(m, n)) (i : nat) : F :=
  (\sum_(j < n) (mxnth A i j - row_mean A i) ^+ 2) / n%:R.

Definition np_mean_axis1 (a : ndarray) : result ndarray :=
  if a is Matrix m _ A then Ok (Vector (mkseq (row_mean A) m))
  else Raise AxisError.

Definition np_mean_axis1_keepdims (a : ndarray) : result ndarray :=
  if a is Matrix m _ A then Ok (Matrix (\matrix_(i < m, j < 1) row_mean A i))
  else Raise AxisError.

Definition np_var_axis1 (a : ndarray) : result (seq F) :=
  if a is Matrix m _ A then Ok (mkseq (row_var A) m) else Raise AxisError.

(** [np.expand_dims(v, axis=1)] of a 1-d array: a column. *)
Definition np_expand_dims_axis1 (v : seq F) : ndarray :=
  Matrix (\matrix_(i < size v, j < 1) nth 0 v i).

(** [np.linalg.inv]. *)
Definition square_of (m n : nat) (A : 'M[F]_(m, n)) : 'M[F]_m :=
  \matrix_(i, j) mxnth A i j.

Definition np_linalg_inv (a : ndarray) : result ndarray :=
  match a with
  | Matrix m n A =>
      if (m == n) && (square_of A \in unitmx)
      then Ok (Matrix (invmx (square_of A)))
      else Raise LinAlgError
  | _ => Raise LinAlgError
  end.

(** [A[:, 0:stop]] on a 2-d array; [stop = None] keeps every column and a
    [stop] beyond the last column is clipped, as Python slices are. *)
Definition np_cols_upto (m n : nat) (A : 'M[F]_(m, n)) (stop : option nat)
    : ndarray :=
  match stop with
  | None => Matrix A
  | Some p => Matrix (\matrix_(i < m, j < minn p n) mxnth A i j)
  end.

(** [np.linalg.norm(A, "fro")] and [np.trace(A)] on a 2-d array. *)
Definition np_linalg_norm_fro (np_sqrt : F -> F) (m n : nat)
    (A : 'M[F]_(m, n)) : F :=
  np_sqrt (\sum_(i < m) \sum_(j < n) A i j ^+ 2).

Definition np_trace (a : ndarray) : result F :=
  if a is Matrix m n A then Ok (\sum_(i < minn m n) mxnth A i i)
  else Raise ValueError.

(** [np.zeros(n)], [np.linspace(start, stop, num, endpoint=False)],
    [np.concatenate] of 1-d arrays is [cat]. *)
Definition np_zeros (n : nat) : seq F := nseq n 0.

Definition np_linspace_open (start stop : F) (num : nat) : seq F :=
  mkseq (fun i => i%:R * ((stop - start) / num%:R) + start) num.

(** [s[i]] for a Python integer [i]: a negative index counts from the end. *)
Definition py_index (T : Type) (s : seq T) (i : int) : result T :=
  match i, s with
  | _, [::] => Raise IndexError
  | Posz k, x :: _ => if (k < size s)%N then Ok (nth x s k) else Raise IndexError
  | Negz k, x :: _ =>
      if (k < size s)%N then Ok (nth x s (size s - k.+1)) else Raise IndexError
  end.

End WithField.

Arguments Scalar {F} _.
Arguments Vector {F} _.
Arguments Matrix {F m n} _.

End Numpy.

Import Numpy.

(** ** [dasftoolbox/problem_settings.py] *)

(** Modelled from the spec: the [ProblemInputs] container, whose module
    [problem_settings.py] is not part of the sources at hand: three ordered
    sequences of arrays, read by position. *)
Record ProblemInputs (F : realFieldType) : Type := mkProblemInputs {
  fused_signals : seq (ndarray F);
  fused_constants : seq (ndarray F);
  global_parameters : seq (ndarray F)
}.

(** ** [dasftoolbox/utils.py] *)

Module Utils.
Section WithField.

Variable F : realFieldType.
Variable np_sqrt : F -> F.

Implicit Types (data matrix : ndarray F) (normalizer : option int).

(** [(matrix + matrix.T) / 2] *)
Definition make_symmetric matrix : result (ndarray F) :=
  do s <-- np_add matrix (np_T matrix);
  Ok (np_div_num s 2%:R).

(** [if normalizer is None: normalizer = np.size(data, 1)] *)
Definition default_normalizer normalizer data : result int :=
  if normalizer is Some k then Ok k
  else do n <-- np_size1 data; Ok (Posz n).

Definition autocorrelation_matrix data normalizer : result (ndarray F) :=
  do n <-- default_normalizer normalizer data;
  do p <-- np_matmul data (np_T data);
  make_symmetric (np_div_num p n%:~R).

Definition cross_correlation_matrix (data1 data2 : ndarray F) normalizer
    : result (ndarray F) :=
  do n <-- default_normalizer normalizer data1;
  do p <-- np_matmul data1 (np_T data2);
  Ok (np_div_num p n%:~R).

(** [data @ data.T / normalizer - np.mean(data, axis=1) @ np.mean(data, axis=1).T] *)
Definition covariance_matrix data normalizer : result (ndarray F) :=
  do n <-- default_normalizer normalizer data;
  do p <-- np_matmul data (np_T data);
  do mu1 <-- np_mean_axis1 data;
  do mu2 <-- np_mean_axis1 data;
  do o <-- np_matmul mu1 (np_T mu2);
  do matrix <-- np_sub (np_div_num p n%:~R) o;
  make_symmetric matrix.

Definition cross_covariance_matrix (data1 data2 : ndarray F) normalizer
    : result (ndarray F) :=
  do n <-- default_normalizer normalizer data1;
  do p <-- np_matmul data1 (np_T data2);
  do mu1 <-- np_mean_axis1 data1;
  do mu2 <-- np_mean_axis1 data2;
  do o <-- np_matmul mu1 (np_T mu2);
  np_sub (np_div_num p n%:~R) o.

Definition normalize data (scale : F) : result (ndarray F) :=
  do data_mean <-- np_mean_axis1_keepdims data;
  do v <-- np_var_axis1 data;
  let data_var := np_map np_sqrt (np_expand_dims_axis1 v) in
  do data' <-- np_sub data data_mean;
  np_div (np_num_mul scale data') data_var.

End WithField.
End Utils.

(** ** [dasftoolbox/optimization_problems/optimization_problem.py] *)

(** Modelled from the spec: the state every problem instance inherits from
    the base class, which is not part of the sources at hand: the configured
    filter count and the optionally saved last solution. *)
Record OptimizationProblem (F : realFieldType) : Type := mkProblem {
  nb_filters : nat;
  X_star_saved : option (ndarray F)
}.

(** What [get_problem_constraints] hands back: Python's [None], or a pair
    whose components are a residual function or [None]. *)
Inductive ConstraintType (F : realFieldType) : Type :=
  | PyNone
  | PyPair of option (ndarray F -> result (ndarray F))
            & option (ndarray F -> result (ndarray F)).

Arguments PyNone {F}.

(** ** [dasftoolbox/optimization_problems/lcmv_problem.py] *)

Module LCMVProblem.
Section WithField.

Variable F : realFieldType.

Definition init (nb_filters : nat) : OptimizationProblem F :=
  mkProblem nb_filters None.

(** [convergence_parameters] and [initial_estimate] are accepted and never
    read; they are left out. *)
Definition solve (self : OptimizationProblem F)
    (problem_inputs : ProblemInputs F) (save_solution : bool)
    : result (ndarray F * OptimizationProblem F) :=
  do Y <-- py_index (fused_signals problem_inputs) 0%:Z;
  do B <-- py_index (fused_constants problem_inputs) 0%:Z;
  do H <-- py_index (global_parameters problem_inputs) 0%:Z;
  do Ryy <-- Utils.autocorrelation_matrix Y None;
  do Ryy_inv <-- np_linalg_inv Ryy;
  do RB <-- np_matmul Ryy_inv B;
  do Ryy_inv' <-- np_linalg_inv Ryy;
  do BtR <-- np_matmul (np_T B) Ryy_inv';
  do G <-- np_matmul BtR B;
  do G_inv <-- np_linalg_inv G;
  do RBG <-- np_matmul RB G_inv;
  do X_star <-- np_matmul RBG (np_T H);
  Ok (X_star,
      if save_solution then mkProblem (nb_filters self) (Some X_star)
      else self).

Definition evaluate_objective (X : ndarray F)
    (problem_inputs : ProblemInputs F) : result F :=
  do Y <-- py_index (fused_signals problem_inputs) 0%:Z;
  do Ryy <-- Utils.autocorrelation_matrix Y None;
  do XtR <-- np_matmul (np_T X) Ryy;
  do XtRX <-- np_matmul XtR X;
  np_trace XtRX.

(** The closure [equality_constraint] returned by the method. *)
Definition equality_constraint (B H X : ndarray F) : result (ndarray F) :=
  do XtB <-- np_matmul (np_T X) B;
  np_sub XtB H.

Definition get_problem_constraints (problem_inputs : ProblemInputs F)
    : result (ConstraintType F) :=
  do B <-- py_index (fused_constants problem_inputs) 0%:Z;
  do H <-- py_index (global_parameters problem_inputs) 0%:Z;
  Ok (PyPair (Some (equality_constraint B H)) None).

End WithField.
End LCMVProblem.

(** ** [dasftoolbox/optimization_problems/mmse_problem.py] *)

Module MMSEProblem.
Section WithField.

Variable F : realFieldType.

Definition init (nb_filters : nat) : OptimizationProblem F :=
  mkProblem nb_filters None.

Definition solve (self : OptimizationProblem F)
    (problem_inputs : ProblemInputs F) (save_solution : bool)
    : result (ndarray F * OptimizationProblem F) :=
  do Y <-- py_index (fused_signals problem_inputs) 0%:Z;
  do D <-- py_index (global_parameters problem_inputs) 0%:Z;
  do Ryy <-- Utils.autocorrelation_matrix Y None;
  do Ryd <-- Utils.cross_correlation_matrix Y D None;
  do Ryy_inv <-- np_linalg_inv Ryy;
  do X_star <-- np_matmul Ryy_inv Ryd;
  Ok (X_star,
      if save_solution then mkProblem (nb_filters self) (Some X_star)
      else self).

Definition evaluate_objective (X : ndarray F)
    (problem_inputs : ProblemInputs F) : result F :=
  do Y <-- py_index (fused_signals problem_inputs) 0%:Z;
  do D <-- py_index (global_parameters problem_inputs) 0%:Z;
  do Ryy <-- Utils.autocorrelation_matrix Y None;
  do Rdd <-- Utils.autocorrelation_matrix D None;
  do Ryd <-- Utils.cross_correlation_matrix Y D None;
  do XtR <-- np_matmul (np_T X) Ryy;
  do XtRX <-- np_matmul XtR X;
  do t1 <-- np_trace XtRX;
  do XtRyd <-- np_matmul (np_T X) Ryd;
  do t2 <-- np_trace XtRyd;
  do t3 <-- np_trace Rdd;
  Ok (t1 - 2%:R * t2 + t3).

(** [def get_problem_constraints(self, **kwargs): return None]: the keyword
    arguments, whatever they are, are not read. *)
Definition get_problem_constraints (kwargs : option (ProblemInputs F))
    : ConstraintType F :=
  PyNone.

End WithField.
End MMSEProblem.

(** ** [dasftoolbox/data_retrievers/data_retriever.py] *)

(** Modelled from the spec: the windowing-parameters object, whose module is
    not part of the sources at hand; the retriever reads its
    [window_length] only. *)
Record DataWindowParameters : Type := mkDataWindowParameters {
  window_length : nat;
  nb_window_reuse : nat
}.

(** ** [numpy.random.Generator] *)

(** A generator is a mutable object: a draw returns the sample and leaves
    the generator in a new state.  Generators live in a store, so that two
    retrievers may be built from the same generator or from two of them. *)
Section Generators.

Variable rng_state : Type.

Definition gen_store : Type := nat -> rng_state.

Definition gen_update (st : gen_store) (g : nat) (s : rng_state) : gen_store :=
  fun g' => if g' == g then s else st g'.

End Generators.

(** ** [dasftoolbox/data_retrievers/lcmv_data_retriever.py] *)

Module LCMVDataRetriever.
Section WithGenerator.

Variable F : realFieldType.
Variable np_sqrt : F -> F.
Variable rng_state : Type.
(** [rng.normal(loc, scale, size=(m, n))] and
    [rng.standard_normal(size=(m, n))] *)
Variable rng_normal :
  F -> F -> forall m n : nat, rng_state -> 'M[F]_(m, n) * rng_state.
Variable rng_standard_normal :
  forall m n : nat, rng_state -> 'M[F]_(m, n) * rng_state.

Record t : Type := mk {
  data_window_params : DataWindowParameters;
  D : ndarray F;
  A_0 : ndarray F;
  Delta : ndarray F;
  noise : ndarray F;
  nb_filters : nat;
  nb_steering : nat;
  B : ndarray F;
  H : ndarray F;
  weights : seq F
}.

(** [int(k * nb_windows / 10)] *)
Definition segment_length (k nb_windows : nat) : nat := (k * nb_windows) %/ 10.

Definition weight_function (nb_windows : nat) : seq F :=
  if (nb_windows < 10)%N then np_zeros F nb_windows
  else
    let segment_1 := np_linspace_open 0 1 (segment_length 5 nb_windows) in
    let segment_2 := np_linspace_open 0 1 (segment_length 3 nb_windows) in
    let segment_3 := np_linspace_open 0 1 (segment_length 2 nb_windows) in
    segment_1 ++ segment_2 ++ segment_3.

Definition init (data_window_params : DataWindowParameters)
    (nb_sensors nb_sources nb_windows : nat) (rng : rng_state)
    (nb_filters : nat) (nb_steering : option nat)
    (signal_var noise_var mixture_var diff_var : F) : t * rng_state :=
  let nb_samples := window_length data_window_params in
  let: (D, rng) := rng_normal 0 (np_sqrt signal_var) nb_sources nb_samples rng in
  let: (A_0, rng) :=
    rng_normal 0 (np_sqrt mixture_var) nb_sensors nb_sources rng in
  let: (Delta, rng) :=
    rng_normal 0 (np_sqrt mixture_var) nb_sensors nb_sources rng in
  let Delta' :=
    np_div_num
      (np_mul_num (np_mul_num (Matrix Delta) (np_linalg_norm_fro np_sqrt A_0))
         diff_var)
      (np_linalg_norm_fro np_sqrt Delta) in
  let: (noise, rng) :=
    rng_normal 0 (np_sqrt noise_var) nb_sensors nb_samples rng in
  let self_nb_steering := if nb_steering is Some p then p else nb_filters in
  let B := np_cols_upto A_0 nb_steering in
  let: (H, rng) := rng_standard_normal nb_filters self_nb_steering rng in
  (mk data_window_params (Matrix D) (Matrix A_0) Delta' (Matrix noise)
      nb_filters self_nb_steering B (Matrix H) (weight_function nb_windows),
   rng).

Definition get_data_window (self : t) (window_id : int)
    : result (ProblemInputs F) :=
  do w <-- py_index (weights self) window_id;
  do A <-- np_add (A_0 self) (np_mul_num (Delta self) w);
  do AD <-- np_matmul A (D self);
  do Y_window <-- np_add AD (noise self);
  do Y_window' <-- Utils.normalize np_sqrt Y_window 1;
  Ok (mkProblemInputs [:: Y_window'] [:: B self] [:: H self]).


End WithGenerator.
End LCMVDataRetriever.

(** ** The legacy [data_retriever.py], class [LCMVDataRetriever] *)

Module LegacyDataRetriever.
Section WithGenerator.

Variable F : realFieldType.
Variable np_sqrt : F -> F.
Variable rng_state : Type.
Variable rng_normal :
  F -> F -> forall m n : nat, rng_state -> 'M[F]_(m, n) * rng_state.
Variable rng_standard_normal :
  forall m n : nat, rng_state -> 'M[F]_(m, n) * rng_state.

Record t : Type := mk {
  D : ndarray F;
  A_0 : ndarray F;
  Delta : ndarray F;
  noise : ndarray F;
  nb_filters : nat;
  nb_steering : nat;
  B : ndarray F;
  H : ndarray F;
  weights : seq F
}.

Definition weight_function (nb_windows : nat) : seq F :=
  let segment_1 := np_linspace_open 0 1 ((5 * nb_windows) %/ 10) in
  let segment_2 := np_linspace_open 0 1 ((3 * nb_windows) %/ 10) in
  let segment_3 := np_linspace_open 0 1 ((2 * nb_windows) %/ 10) in
  segment_1 ++ segment_2 ++ segment_3.

Definition init (nb_samples nb_sensors nb_sources nb_windows : nat)
    (rng : rng_state) (nb_filters : nat) (nb_steering : option nat)
    (signal_var noise_var mixture_var diff_var : F) : t * rng_state :=
  let: (D, rng) := rng_normal 0 (np_sqrt signal_var) nb_sources nb_samples rng in
  let: (A_0, rng) :=
    rng_normal 0 (np_sqrt mixture_var) nb_sensors nb_sources rng in
  let: (Delta, rng) :=
    rng_normal 0 (np_sqrt mixture_var) nb_sensors nb_sources rng in
  let Delta' :=
    np_div_num
      (np_mul_num (np_mul_num (Matrix Delta) (np_linalg_norm_fro np_sqrt A_0))
         diff_var)
      (np_linalg_norm_fro np_sqrt Delta) in
  let: (noise, rng) :=
    rng_normal 0 (np_sqrt noise_var) nb_sensors nb_samples rng in
  let self_nb_steering := if nb_steering is Some p then p else nb_filters in
  let B := np_cols_upto A_0 nb_steering in
  let: (H, rng) := rng_standard_normal nb_filters self_nb_steering rng in
  (mk (Matrix D) (Matrix A_0) Delta' (Matrix noise)
      nb_filters self_nb_steering B (Matrix H) (weight_function nb_windows),
   rng).

Definition get_current_window (self : t) (window_id : int)
    : result (ProblemInputs F) :=
  do w <-- py_index (weights self) window_id;
  do A <-- np_add (A_0 self) (np_mul_num (Delta self) w);
  do AD <-- np_matmul A (D self);
  do Y_window <-- np_add AD (noise self);
  do Y_window' <-- Utils.normalize np_sqrt Y_window 1;
  Ok (mkProblemInputs [:: Y_window'] [:: B self] [:: H self]).

End WithGenerator.
End LegacyDataRetriever.

(** ** Reference values, as the specification words them *)

Section Reference.

Variable F : realFieldType.

(** The exact average of a square matrix with its transpose. *)
Definition average_with_transpose (n : nat) (M : 'M[F]_n) : 'M[F]_n :=
  2%:R^-1 *: (M + M^T).

(** The number divided by: the normalizer, by default the sample count. *)
Definition normalizer_value (normalizer : option int) (samples : nat) : F :=
  (if normalizer is Some k then k else Posz samples)%:~R.

(** The column of row means of a signal block. *)
Definition row_mean_vector (m n : nat) (Y : 'M[F]_(m, n)) : 'cV[F]_m :=
  \col_i ((\sum_j Y i j) / n%:R).

(** Covariance: the symmetrized [(Y Y^T) / n] minus the outer product of the
    row-mean vector with itself. *)
Definition covariance_reference (m n : nat) (Y : 'M[F]_(m, n))
    (normalizer : option int) : 'M[F]_m :=
  average_with_transpose ((normalizer_value normalizer n)^-1 *: (Y *m Y^T))
  - row_mean_vector Y *m (row_mean_vector Y)^T.

(** Cross-covariance: [(Y D^T) / n] minus the outer product of the two
    row-mean vectors. *)
Definition cross_covariance_reference (m1 m2 n : nat)
    (Y : 'M[F]_(m1, n)) (D : 'M[F]_(m2, n)) (normalizer : option int)
    : 'M[F]_(m1, m2) :=
  (normalizer_value normalizer n)^-1 *: (Y *m D^T)
  - row_mean_vector Y *m (row_mean_vector D)^T.

End Reference.

(** ** The two problems behind the shared interface *)

Section Problems.

Variable F : realFieldType.

Inductive problem_class : Type := LCMV | MMSE.

(** Method dispatch of [problem.solve(problem_inputs, save_solution)]. *)
Definition solve_of (c : problem_class)
    : OptimizationProblem F -> ProblemInputs F -> bool ->
      result (ndarray F * OptimizationProblem F) :=
  match c with
  | LCMV => @LCMVProblem.solve F
  | MMSE => @MMSEProblem.solve F
  end.

Definition is_2d (a : ndarray F) : bool := np_ndim a == 2.


End Problems.

(** ** Shape of a drift-weight sequence *)

Section WeightShape.

Variable F : realFieldType.

(** A linear ramp from 0 to 1 with the endpoint left out: [k] values, the
    [i]-th being [i / k]. *)
Definition is_ramp (s : seq F) : bool :=
  all (fun i => nth 0 s i == i%:R / (size s)%:R) (iota 0 (size s)).

Definition in_unit_interval (x : F) : bool := (0 <= x) && (x < 1).

(** The indices at which a sequence drops below its previous value. *)
Fixpoint descents_from (i : nat) (previous : F) (s : seq F) : seq nat :=
  if s is x :: s' then
    (if x < previous then [:: i] else [::]) ++ descents_from i.+1 x s'
  else [::].

Definition descents (s : seq F) : seq nat :=
  if s is x :: s' then descents_from 1 x s' else [::].

End WeightShape.

Arguments in_unit_interval {F} x.

(** ** A concrete generator, for closed examples *)

Section CountingGenerator.

(** The state counts the draws; the sample drawn in state [s] has
    [loc + scale * (s + i + j + 1)] at row [i], column [j]. *)
Definition counting_normal (loc scale : rat) (m n : nat) (s : nat)
    : 'M[rat]_(m, n) * nat :=
  (\matrix_(i, j) (loc + scale * (s + i + j).+1%:R), s.+1).

Definition counting_standard_normal (m n : nat) (s : nat)
    : 'M[rat]_(m, n) * nat :=
  counting_normal 0 1 m n s.

(** One sensor, one source, two samples per window, two filters; the
    identity stands in for [np.sqrt], which no example depends on. *)
Definition example_retriever (nb_windows : nat) (nb_steering : option nat)
    : LCMVDataRetriever.t rat :=
  (LCMVDataRetriever.init id counting_normal counting_standard_normal
     (mkDataWindowParameters 2 1) 1 1 nb_windows 0%N 2 nb_steering
     (1 / 2%:R) (1 / 10%:R) (1 / 2%:R) 1).1.

End CountingGenerator.

(** * Properties *)

(** ** Equations of the numpy fragment on arrays of known shape *)

Lemma bind_Ok (T U : Type) (x : T) (k : T -> result U) : bind (Ok x) k = k x.
Proof. by []. Qed.

Lemma bind_Raise (T U : Type) (e : error) (k : T -> result U) :
  bind (Raise e) k = Raise e.
Proof. by []. Qed.

Lemma Ok_inj (T : Type) (x y : T) : Ok x = Ok y -> x = y.
Proof. by case. Qed.

Arguments Ok_inj {T x y} _.

Lemma bind_eq_Ok (T U : Type) (r : result T) (k : T -> result U) (z : U) :
  bind r k = Ok z -> exists2 x, r = Ok x & k x = Ok z.
Proof. by case: r => [x|e] //= eq_z; exists x. Qed.

Arguments bind_eq_Ok {T U r k z} _.

Section NumpyFacts.

Variable F : realFieldType.

Lemma mxnth_ord (m n : nat) (A : 'M[F]_(m, n)) (i : 'I_m) (j : 'I_n) :
  mxnth A i j = A i j.
Proof. by rewrite /mxnth !valK. Qed.

Lemma mxnth_row_default (m n : nat) (A : 'M[F]_(m, n)) (i j : nat) :
  (m <= i)%N -> mxnth A i j = 0.
Proof. by move=> le_mi; rewrite /mxnth insubF // ltnNge le_mi. Qed.

Lemma Matrix_inj (m n : nat) (A B : 'M[F]_(m, n)) :
  Matrix A = Matrix B -> A = B.
Proof.
move=> eqAB; apply/matrixP => i j.
by rewrite -!mxnth_ord -!/(item2 (Matrix _) i j) eqAB.
Qed.

Lemma square_of_id (n : nat) (A : 'M[F]_n) : square_of A = A.
Proof. by apply/matrixP => i j; rewrite mxE mxnth_ord. Qed.

Lemma bidx_ord (d : nat) (i : 'I_d) : bidx d i = i.
Proof.
rewrite /bidx; case: eqP => // d1; case: i => i /=.
by rewrite d1 ltnS leqn0 => /eqP.
Qed.

Lemma bdim_same (d : nat) : bdim d d = Some d.
Proof. by rewrite /bdim eqxx. Qed.

Lemma np_matmul_mx (m n p : nat) (A : 'M[F]_(m, n)) (B : 'M[F]_(n, p)) :
  np_matmul (Matrix A) (Matrix B) = Ok (Matrix (A *m B)).
Proof.
rewrite /= eqxx; congr (Ok (Matrix _)); apply/matrixP => i k.
by rewrite !mxE; apply: eq_bigr => j _; rewrite mxnth_ord.
Qed.

Lemma np_matmul_mx_mismatch (m n n' p : nat)
    (A : 'M[F]_(m, n)) (B : 'M[F]_(n', p)) :
  n != n' -> np_matmul (Matrix A) (Matrix B) = Raise ValueError.
Proof. by rewrite /=; case: (n == n'). Qed.

Lemma np_matmul_vec (u v : seq F) :
  size u = size v ->
  np_matmul (Vector u) (Vector v)
  = Ok (Scalar (\sum_(j < size u) nth 0 u j * nth 0 v j)).
Proof. by rewrite /= => ->; rewrite eqxx. Qed.

Lemma broadcast_mx (f : F -> F -> F) (m n : nat) (A B : 'M[F]_(m, n)) :
  broadcast f (Matrix A) (Matrix B)
  = Ok (Matrix (\matrix_(i, j) f (A i j) (B i j))).
Proof.
rewrite /broadcast /= !bdim_same /=; congr (Ok (Matrix _)).
by apply/matrixP => i j; rewrite !mxE !bidx_ord !mxnth_ord.
Qed.

Lemma broadcast_mx_scalar (f : F -> F -> F) (m n : nat)
    (A : 'M[F]_(m, n)) (c : F) :
  broadcast f (Matrix A) (Scalar c) = Ok (Matrix (map_mx (f^~ c) A)).
Proof.
rewrite /broadcast /= /bdim.
have row : (if m == 1 then Some m else if m == 1 then Some 1
            else if 1 == 1 then Some m else None)%N = Some m by case: eqP.
have col : (if n == 1 then Some n else if n == 1 then Some 1
            else if 1 == 1 then Some n else None)%N = Some n by case: eqP.
rewrite row col /=; congr (Ok (Matrix _)).
by apply/matrixP => i j; rewrite !mxE !bidx_ord mxnth_ord.
Qed.

Lemma broadcast_mx_col (f : F -> F -> F) (m n : nat)
    (A : 'M[F]_(m, n)) (c : 'M[F]_(m, 1)) :
  broadcast f (Matrix A) (Matrix c)
  = Ok (Matrix (\matrix_(i, j) f (A i j) (c i 0))).
Proof.
rewrite /broadcast /= bdim_same /bdim.
have col : (if n == 1 then Some n else if n == 1 then Some 1
            else if 1 == 1 then Some n else None)%N = Some n by case: eqP.
rewrite col /=; congr (Ok (Matrix _)).
apply/matrixP => i j; rewrite !mxE !bidx_ord mxnth_ord.
by rewrite /bidx eqxx (mxnth_ord c i 0).
Qed.

Lemma np_add_mx (m n : nat) (A B : 'M[F]_(m, n)) :
  np_add (Matrix A) (Matrix B) = Ok (Matrix (A + B)).
Proof.
rewrite /np_add broadcast_mx; congr (Ok (Matrix _)).
by apply/matrixP => i j; rewrite !mxE.
Qed.

Lemma np_sub_mx (m n : nat) (A B : 'M[F]_(m, n)) :
  np_sub (Matrix A) (Matrix B) = Ok (Matrix (A - B)).
Proof.
rewrite /np_sub broadcast_mx; congr (Ok (Matrix _)).
by apply/matrixP => i j; rewrite !mxE.
Qed.

Lemma np_sub_mx_scalar (m n : nat) (A : 'M[F]_(m, n)) (c : F) :
  np_sub (Matrix A) (Scalar c) = Ok (Matrix (A - const_mx c)).
Proof.
rewrite /np_sub broadcast_mx_scalar; congr (Ok (Matrix _)).
by apply/matrixP => i j; rewrite !mxE.
Qed.

Lemma np_div_num_mx (m n : nat) (A : 'M[F]_(m, n)) (c : F) :
  np_div_num (Matrix A) c = Matrix (c^-1 *: A).
Proof.
rewrite /np_div_num /=; congr (Matrix _).
by apply/matrixP => i j; rewrite !mxE mulrC.
Qed.

Lemma np_mul_num_mx (m n : nat) (A : 'M[F]_(m, n)) (c : F) :
  np_mul_num (Matrix A) c = Matrix (c *: A).
Proof.
rewrite /np_mul_num /=; congr (Matrix _).
by apply/matrixP => i j; rewrite !mxE mulrC.
Qed.

Lemma np_linalg_inv_mx (n : nat) (A : 'M[F]_n) :
  A \in unitmx -> np_linalg_inv (Matrix A) = Ok (Matrix (invmx A)).
Proof. by move=> uA; rewrite /= eqxx square_of_id uA. Qed.

Lemma np_linalg_inv_singular (n : nat) (A : 'M[F]_n) :
  A \notin unitmx -> np_linalg_inv (Matrix A) = Raise LinAlgError.
Proof. by move=> uA; rewrite /= eqxx square_of_id (negbTE uA). Qed.

Lemma size_np_linspace_open (start stop : F) (num : nat) :
  size (np_linspace_open start stop num) = num.
Proof. by rewrite size_mkseq. Qed.

Lemma nth_np_linspace_open (x0 start stop : F) (num i : nat) :
  (i < num)%N ->
  nth x0 (np_linspace_open start stop num) i
  = i%:R * ((stop - start) / num%:R) + start.
Proof. by move=> lt_i; rewrite nth_mkseq. Qed.

End NumpyFacts.

Arguments Matrix_inj {F m n A B} _.

(** ** Statistics utilities *)

Section UtilsFacts.

Variable F : realFieldType.

Lemma np_T_mx (m n : nat) (A : 'M[F]_(m, n)) : np_T (Matrix A) = Matrix A^T.
Proof. by []. Qed.

Lemma average_with_transpose_sym (n : nat) (M : 'M[F]_n) :
  (average_with_transpose M)^T = average_with_transpose M.
Proof.
by rewrite /average_with_transpose linearZ /= linearD /= trmxK addrC.
Qed.

Lemma make_symmetric_mx (n : nat) (M : 'M[F]_n) :
  Utils.make_symmetric (Matrix M) = Ok (Matrix (average_with_transpose M)).
Proof.
by rewrite /Utils.make_symmetric np_T_mx np_add_mx bind_Ok np_div_num_mx.
Qed.

Lemma default_normalizer_mx (m n : nat) (Y : 'M[F]_(m, n))
    (normalizer : option int) :
  Utils.default_normalizer normalizer (Matrix Y)
  = Ok (if normalizer is Some k then k else Posz n).
Proof. by case: normalizer. Qed.

Lemma autocorrelation_matrix_mx (m n : nat) (Y : 'M[F]_(m, n))
    (normalizer : option int) :
  Utils.autocorrelation_matrix (Matrix Y) normalizer
  = Ok (Matrix (average_with_transpose
                  ((normalizer_value F normalizer n)^-1 *: (Y *m Y^T)))).
Proof.
rewrite /Utils.autocorrelation_matrix default_normalizer_mx np_T_mx.
by rewrite np_matmul_mx !bind_Ok np_div_num_mx make_symmetric_mx.
Qed.

(** C7.  For every real matrix [Y], [autocorrelation_matrix Y] is the exact
    average of [(Y Y^T) / n] with its transpose, [n] being the normalizer
    and by default the number of columns of [Y]; the array returned equals
    its own transpose. *)
Theorem autocorrelation_matrix_symmetric (m n : nat) (Y : 'M[F]_(m, n))
    (normalizer : option int) :
  let k : F := (if normalizer is Some k then k else Posz n)%:~R in
  let M := k^-1 *: (Y *m Y^T) in
  let R := 2%:R^-1 *: (M + M^T) in
  Utils.autocorrelation_matrix (Matrix Y) normalizer = Ok (Matrix R)
  /\ np_T (Matrix R) = Matrix R.
Proof.
move=> k M R; split; first exact: autocorrelation_matrix_mx.
by rewrite np_T_mx; congr Matrix; apply: average_with_transpose_sym.
Qed.

(** What the two covariance functions compute.  [np.mean(data, axis=1)] is a
    1-d array, its [.T] is itself, and [@] of two 1-d arrays is their inner
    product: a single number, which the subtraction spreads over every
    entry. *)
Definition means_inner_product (m1 m2 n1 n2 : nat)
    (Y : 'M[F]_(m1, n1)) (D : 'M[F]_(m2, n2)) : F :=
  \sum_(i < m1) row_mean Y i * row_mean D i.

Lemma np_mean_axis1_mx (m n : nat) (Y : 'M[F]_(m, n)) :
  np_mean_axis1 (Matrix Y) = Ok (Vector (mkseq (row_mean Y) m)).
Proof. by []. Qed.

Lemma np_matmul_means (m n1 n2 : nat)
    (Y : 'M[F]_(m, n1)) (D : 'M[F]_(m, n2)) :
  np_matmul (Vector (mkseq (row_mean Y) m)) (np_T (Vector (mkseq (row_mean D) m)))
  = Ok (Scalar (means_inner_product Y D)).
Proof.
rewrite [np_T _]/= np_matmul_vec ?size_mkseq //; congr (Ok (Scalar _)).
apply: eq_bigr => i _.
by rewrite !nth_mkseq.
Qed.

Lemma covariance_matrix_mx (m n : nat) (Y : 'M[F]_(m, n))
    (normalizer : option int) :
  Utils.covariance_matrix (Matrix Y) normalizer
  = Ok (Matrix (average_with_transpose
                  ((normalizer_value F normalizer n)^-1 *: (Y *m Y^T)
                   - const_mx (means_inner_product Y Y)))).
Proof.
rewrite /Utils.covariance_matrix default_normalizer_mx np_T_mx np_matmul_mx.
rewrite np_mean_axis1_mx !bind_Ok np_matmul_means bind_Ok np_div_num_mx.
by rewrite np_sub_mx_scalar bind_Ok make_symmetric_mx.
Qed.

Lemma cross_covariance_matrix_mx (m n : nat) (Y D : 'M[F]_(m, n))
    (normalizer : option int) :
  Utils.cross_covariance_matrix (Matrix Y) (Matrix D) normalizer
  = Ok (Matrix ((normalizer_value F normalizer n)^-1 *: (Y *m D^T)
                - const_mx (means_inner_product Y D))).
Proof.
rewrite /Utils.cross_covariance_matrix default_normalizer_mx np_T_mx.
rewrite np_matmul_mx !np_mean_axis1_mx !bind_Ok np_matmul_means bind_Ok.
by rewrite np_div_num_mx np_sub_mx_scalar.
Qed.

Lemma cross_covariance_matrix_rows_differ (m1 m2 n : nat)
    (Y : 'M[F]_(m1, n)) (D : 'M[F]_(m2, n)) (normalizer : option int) :
  m1 != m2 ->
  Utils.cross_covariance_matrix (Matrix Y) (Matrix D) normalizer
  = Raise ValueError.
Proof.
move=> neq_m.
rewrite /Utils.cross_covariance_matrix default_normalizer_mx np_T_mx.
rewrite np_matmul_mx !np_mean_axis1_mx !bind_Ok /= !size_mkseq.
by rewrite (negbTE neq_m).
Qed.

(** The signal block of two sensors and one sample, both reading 1. *)
Let ones21 : 'M[F]_(2, 1) := const_mx 1.

Lemma gram_ones21 : ones21 *m ones21^T = const_mx 1.
Proof. by apply/matrixP => i j; rewrite !mxE big_ord1 !mxE mulr1. Qed.

Lemma row_mean_ones21 (i : 'I_2) : row_mean ones21 i = 1.
Proof. by rewrite /row_mean big_ord1 mxnth_ord mxE divr1. Qed.

Lemma means_inner_product_ones21 : means_inner_product ones21 ones21 = 2%:R.
Proof.
rewrite /means_inner_product big_ord_recl big_ord1.
by rewrite !row_mean_ones21 mulr1.
Qed.

Lemma row_mean_vector_ones21 : row_mean_vector ones21 = const_mx 1.
Proof. by apply/matrixP => i j; rewrite !mxE big_ord1 mxE divr1. Qed.

Lemma average_with_transpose_const (n : nat) (c : F) :
  average_with_transpose (const_mx c : 'M_n) = const_mx c.
Proof.
apply/matrixP => i j; rewrite !mxE -mulr2n -[c *+ 2]mulr_natr mulrC.
by rewrite mulfK // pnatr_eq0.
Qed.

Lemma covariance_matrix_ones21 :
  Utils.covariance_matrix (Matrix ones21) None
  = Ok (Matrix (const_mx (-1) : 'M_2)).
Proof.
rewrite covariance_matrix_mx gram_ones21 means_inner_product_ones21.
rewrite /normalizer_value mulr1z invr1 scale1r.
have -> : const_mx 1 - const_mx 2%:R = const_mx (-1) :> 'M[F]_2.
  by apply/matrixP => i j; rewrite !mxE -[2%:R]/(1 + 1) opprD addNKr.
by rewrite average_with_transpose_const.
Qed.

Lemma covariance_reference_ones21 : covariance_reference ones21 None = 0.
Proof.
rewrite /covariance_reference gram_ones21 row_mean_vector_ones21.
rewrite /normalizer_value mulr1z invr1 scale1r average_with_transpose_const.
by apply/matrixP => i j; rewrite !mxE big_ord1 !mxE mulr1 subrr.
Qed.

Lemma cross_covariance_matrix_ones21 :
  Utils.cross_covariance_matrix (Matrix ones21) (Matrix ones21) None
  = Ok (Matrix (const_mx (-1) : 'M_2)).
Proof.
rewrite cross_covariance_matrix_mx gram_ones21 means_inner_product_ones21.
rewrite /normalizer_value mulr1z invr1 scale1r; congr (Ok (Matrix _)).
by apply/matrixP => i j; rewrite !mxE -[2%:R]/(1 + 1) opprD addNKr.
Qed.

Lemma cross_covariance_reference_ones21 :
  cross_covariance_reference ones21 ones21 None = 0.
Proof.
rewrite /cross_covariance_reference gram_ones21 row_mean_vector_ones21.
rewrite /normalizer_value mulr1z invr1 scale1r.
by apply/matrixP => i j; rewrite !mxE big_ord1 !mxE mulr1 subrr.
Qed.

End UtilsFacts.

(** C3.  [covariance_matrix] and [cross_covariance_matrix] subtract the inner
    product of the row means, one number spread over every entry, where the
    covariance subtracts their outer product.  Two sensors that both read 1
    in a single sample have covariance 0; both functions answer with the
    matrix whose four entries are -1. *)
Theorem covariance_matrix_subtracts_inner_product :
  let Y : 'M[rat]_(2, 1) := const_mx 1 in
  let minus_ones : 'M[rat]_2 := const_mx (-1) in
  [/\ Utils.covariance_matrix (Matrix Y) None = Ok (Matrix minus_ones),
      covariance_reference Y None = 0,
      Utils.cross_covariance_matrix (Matrix Y) (Matrix Y) None
      = Ok (Matrix minus_ones),
      cross_covariance_reference Y Y None = 0
    & Matrix minus_ones <> Matrix (0 : 'M[rat]_2)].
Proof.
split.
- exact: covariance_matrix_ones21.
- exact: covariance_reference_ones21.
- exact: cross_covariance_matrix_ones21.
- exact: cross_covariance_reference_ones21.
- by move=> eq0; have /matrixP/(_ ord0 ord0) := Matrix_inj eq0; rewrite !mxE.
Qed.

(** ** The LCMV problem *)

Section LCMVFacts.

Variable F : realFieldType.

Lemma py_index_head (T : Type) (x : T) (s : seq T) :
  py_index (x :: s) 0%:Z = Ok x.
Proof. by []. Qed.

Lemma autocorrelation_matrix_sym (m n : nat) (Y : 'M[F]_(m, n)) (R : 'M[F]_m) :
  Utils.autocorrelation_matrix (Matrix Y) None = Ok (Matrix R) -> R^T = R.
Proof.
rewrite autocorrelation_matrix_mx => eqR; rewrite -(Matrix_inj (Ok_inj eqR)).
exact: average_with_transpose_sym.
Qed.

Section ClosedForm.

Variables (m n p q : nat).
Variables (Y : 'M[F]_(m, n)) (B : 'M[F]_(m, p)) (H : 'M[F]_(q, p)).
Variable Ryy : 'M[F]_m.

Hypothesis Ryy_def :
  Utils.autocorrelation_matrix (Matrix Y) None = Ok (Matrix Ryy).
Hypothesis Ryy_unit : Ryy \in unitmx.
Hypothesis gram_unit : B^T *m invmx Ryy *m B \in unitmx.

Let G : 'M[F]_p := B^T *m invmx Ryy *m B.
Let X : 'M[F]_(m, q) := invmx Ryy *m B *m invmx G *m H^T.

Lemma lcmv_gram_sym : G^T = G.
Proof.
rewrite /G !trmx_mul trmxK trmx_inv (autocorrelation_matrix_sym Ryy_def).
by rewrite mulmxA.
Qed.

Lemma lcmv_constraint_holds : X^T *m B = H.
Proof.
rewrite /X !trmx_mul trmxK !trmx_inv lcmv_gram_sym.
rewrite (autocorrelation_matrix_sym Ryy_def) -!mulmxA [B^T *m _]mulmxA.
by rewrite -/G mulVmx // mulmx1.
Qed.

Lemma lcmv_solve_mx (self : OptimizationProblem F) (save_solution : bool)
    (sigs consts params : seq (ndarray F)) :
  LCMVProblem.solve self
    (mkProblemInputs (Matrix Y :: sigs) (Matrix B :: consts)
       (Matrix H :: params)) save_solution
  = Ok (Matrix X,
        if save_solution then mkProblem (nb_filters self) (Some (Matrix X))
        else self).
Proof.
rewrite /LCMVProblem.solve !py_index_head !bind_Ok Ryy_def bind_Ok.
rewrite np_linalg_inv_mx // bind_Ok np_matmul_mx !bind_Ok np_T_mx.
rewrite np_matmul_mx bind_Ok np_matmul_mx bind_Ok np_linalg_inv_mx //.
by rewrite bind_Ok np_matmul_mx bind_Ok np_T_mx np_matmul_mx bind_Ok.
Qed.

Lemma lcmv_equality_constraint_mx (X' : 'M[F]_(m, q)) :
  LCMVProblem.equality_constraint (Matrix B) (Matrix H) (Matrix X')
  = Ok (Matrix (X'^T *m B - H)).
Proof.
by rewrite /LCMVProblem.equality_constraint np_T_mx np_matmul_mx bind_Ok
           np_sub_mx.
Qed.

End ClosedForm.
End LCMVFacts.

(** C1.  For inputs with signal block [Y], steering matrix [B] and constraint
    target [H] such that [Ryy = autocorrelation_matrix Y] and
    [B^T Ryy^-1 B] are invertible, [solve] returns
    [X* = Ryy^-1 B (B^T Ryy^-1 B)^-1 H^T], and the equality-constraint
    residual handed out by [get_problem_constraints] is exactly zero at
    [X*]: [X*^T B - H = 0]. *)
Theorem lcmv_solve_closed_form (F : realFieldType) (m n p q : nat)
    (Y : 'M[F]_(m, n)) (B : 'M[F]_(m, p)) (H : 'M[F]_(q, p)) (Ryy : 'M[F]_m)
    (self : OptimizationProblem F) (save_solution : bool) :
  Utils.autocorrelation_matrix (Matrix Y) None = Ok (Matrix Ryy) ->
  Ryy \in unitmx ->
  B^T *m invmx Ryy *m B \in unitmx ->
  let X_star := invmx Ryy *m B *m invmx (B^T *m invmx Ryy *m B) *m H^T in
  let problem_inputs :=
    mkProblemInputs [:: Matrix Y] [:: Matrix B] [:: Matrix H] in
  [/\ LCMVProblem.solve self problem_inputs save_solution
      = Ok (Matrix X_star,
            if save_solution
            then mkProblem (nb_filters self) (Some (Matrix X_star))
            else self),
      LCMVProblem.get_problem_constraints problem_inputs
      = Ok (PyPair (Some (LCMVProblem.equality_constraint (Matrix B) (Matrix H)))
              None)
    & LCMVProblem.equality_constraint (Matrix B) (Matrix H) (Matrix X_star)
      = Ok (Matrix (0 : 'M[F]_(q, p)))].
Proof.
move=> Ryy_def Ryy_unit gram_unit X_star problem_inputs; split.
- exact: lcmv_solve_mx.
- by [].
- rewrite lcmv_equality_constraint_mx (lcmv_constraint_holds _ Ryy_def) //.
  by rewrite subrr.
Qed.

(** The identity as a block of two sensors and two samples: a well-conditioned
    instance of the above. *)
Section IdentityInstance.

Variable F : realFieldType.

Lemma average_with_transpose_scalar (n : nat) (a : F) :
  average_with_transpose (a%:M : 'M_n) = a%:M.
Proof.
apply/matrixP => i j; rewrite !mxE [j == i]eq_sym.
set x := a *+ _; rewrite -mulr2n -[x *+ 2]mulr_natr mulrC.
by rewrite mulfK // pnatr_eq0.
Qed.

Lemma autocorrelation_matrix_identity (n : nat) :
  Utils.autocorrelation_matrix (Matrix (1%:M : 'M[F]_n)) None
  = Ok (Matrix ((n%:R^-1)%:M : 'M[F]_n)).
Proof.
rewrite autocorrelation_matrix_mx trmx1 mulmx1 /normalizer_value.
by rewrite scalemx1 average_with_transpose_scalar -pmulrn.
Qed.

Lemma identity_autocorrelation_unit (n : nat) :
  ((n.+1%:R^-1)%:M : 'M[F]_n.+1) \in unitmx.
Proof. by rewrite unitmxE det_scalar unitrX // unitfE invr_eq0 pnatr_eq0. Qed.

Lemma identity_gram_unit (n : nat) :
  (1%:M)^T *m invmx ((n.+1%:R^-1)%:M : 'M[F]_n.+1) *m 1%:M \in unitmx.
Proof.
by rewrite trmx1 mul1mx mulmx1 unitmx_inv identity_autocorrelation_unit.
Qed.

End IdentityInstance.

Lemma lcmv_solve_closed_form_witness :
  let I2 : 'M[rat]_2 := 1%:M in
  let Ryy : 'M[rat]_2 := (2%:R^-1)%:M in
  let X_star := invmx Ryy *m I2 *m invmx (I2^T *m invmx Ryy *m I2) *m I2^T in
  LCMVProblem.equality_constraint (Matrix I2) (Matrix I2) (Matrix X_star)
  = Ok (Matrix (0 : 'M[rat]_2)).
Proof.
move=> I2 Ryy X_star.
have [] := @lcmv_solve_closed_form rat 2 2 2 2 I2 I2 I2 Ryy
             (LCMVProblem.init rat 2) false
             (autocorrelation_matrix_identity rat 2)
             (identity_autocorrelation_unit rat 1)
             (identity_gram_unit rat 1).
by [].
Defined.

(** ** The MMSE problem, and the shape of both solutions *)

Section SolveShape.

Variable F : realFieldType.

Lemma cross_correlation_matrix_mx (m q n : nat)
    (Y : 'M[F]_(m, n)) (D : 'M[F]_(q, n)) (normalizer : option int) :
  Utils.cross_correlation_matrix (Matrix Y) (Matrix D) normalizer
  = Ok (Matrix ((normalizer_value F normalizer n)^-1 *: (Y *m D^T))).
Proof.
rewrite /Utils.cross_correlation_matrix default_normalizer_mx np_T_mx.
by rewrite np_matmul_mx !bind_Ok np_div_num_mx.
Qed.

Lemma mmse_solve_mx (m n q : nat) (Y : 'M[F]_(m, n)) (D : 'M[F]_(q, n))
    (Ryy : 'M[F]_m) (self : OptimizationProblem F) (save_solution : bool)
    (sigs params : seq (ndarray F)) (consts : seq (ndarray F)) :
  Utils.autocorrelation_matrix (Matrix Y) None = Ok (Matrix Ryy) ->
  Ryy \in unitmx ->
  let X := invmx Ryy *m ((n%:R)^-1 *: (Y *m D^T)) in
  MMSEProblem.solve self
    (mkProblemInputs (Matrix Y :: sigs) consts (Matrix D :: params))
    save_solution
  = Ok (Matrix X,
        if save_solution then mkProblem (nb_filters self) (Some (Matrix X))
        else self).
Proof.
move=> Ryy_def Ryy_unit X.
rewrite /MMSEProblem.solve !py_index_head !bind_Ok Ryy_def bind_Ok.
rewrite cross_correlation_matrix_mx bind_Ok np_linalg_inv_mx // bind_Ok.
by rewrite np_matmul_mx bind_Ok /X /normalizer_value -pmulrn.
Qed.

Lemma is_2dP (a : ndarray F) :
  is_2d a -> exists (m n : nat) (A : 'M[F]_(m, n)), a = Matrix A.
Proof. by case: a => // m n A _; exists m, n, A. Qed.







End SolveShape.



(** ** Problem constraints *)

(** C9 fails as stated: the MMSE problem does not return a pair of two absent
    components; it returns Python's [None]. *)
Lemma mmse_constraints_not_a_pair :
  MMSEProblem.get_problem_constraints (None : option (ProblemInputs rat))
  <> PyPair None None.
Proof. discriminate. Qed.

(** C9, amended.  For the LCMV problem [get_problem_constraints] returns the
    pair of the function [X |-> X^T B - H] and [None]; for the MMSE problem
    it returns [None] itself, whatever it is called with. *)
Theorem get_problem_constraints_values (F : realFieldType)
    (B H : ndarray F) (sigs consts params : seq (ndarray F))
    (kwargs : option (ProblemInputs F)) :
  [/\ LCMVProblem.get_problem_constraints
        (mkProblemInputs sigs (B :: consts) (H :: params))
      = Ok (PyPair
              (Some (fun X => do XtB <-- np_matmul (np_T X) B; np_sub XtB H))
              None),
      forall (m p q : nat) (B' : 'M[F]_(m, p)) (H' : 'M[F]_(q, p))
             (X : 'M[F]_(m, q)),
        LCMVProblem.equality_constraint (Matrix B') (Matrix H') (Matrix X)
        = Ok (Matrix (X^T *m B' - H'))
    & MMSEProblem.get_problem_constraints kwargs = PyNone].
Proof.
split; [reflexivity | | reflexivity].
move=> m p q B' H' X; exact: lcmv_equality_constraint_mx.
Qed.

(** ** The drift-weight sequence *)

Section WeightFacts.

Variable F : realFieldType.

Lemma np_linspace_unit (k : nat) :
  np_linspace_open (0 : F) 1 k = [seq i%:R / k%:R | i <- iota 0 k].
Proof.
rewrite /np_linspace_open /mkseq; apply: eq_map => i.
by rewrite subr0 addr0 div1r.
Qed.

Lemma is_ramp_linspace (k : nat) : is_ramp (np_linspace_open (0 : F) 1 k).
Proof.
rewrite /is_ramp size_mkseq; apply/allP => i; rewrite mem_iota add0n /=.
by move=> lt_ik; rewrite np_linspace_unit (nth_map 0%N) ?size_iota // nth_iota.
Qed.

Lemma fraction_in_unit_interval (i k : nat) :
  (i < k)%N -> in_unit_interval (i%:R / k%:R : F).
Proof.
move=> lt_ik; have k_gt0 : 0 < k%:R :> F by rewrite ltr0n (leq_trans _ lt_ik).
by rewrite /in_unit_interval divr_ge0 ?ler0n // ltr_pdivrMr // mul1r ltr_nat.
Qed.

Lemma linspace_in_unit_interval (k : nat) :
  all in_unit_interval (np_linspace_open (0 : F) 1 k).
Proof.
rewrite np_linspace_unit; apply/allP => x /mapP[i]; rewrite mem_iota add0n /=.
by move=> lt_ik ->; apply: fraction_in_unit_interval.
Qed.

Lemma weight_function_in_unit_interval (n : nat) :
  all in_unit_interval (LCMVDataRetriever.weight_function F n).
Proof.
rewrite /LCMVDataRetriever.weight_function; case: ifP => _.
  by apply/allP => x /nseqP[-> _]; rewrite /in_unit_interval lexx ltr01.
by rewrite !all_cat !linspace_in_unit_interval.
Qed.

(** Comparison of two fractions of naturals goes by cross-multiplication. *)
Lemma fraction_lt (i j k l : nat) :
  (0 < k)%N -> (0 < l)%N ->
  (i%:R / k%:R < j%:R / l%:R :> F) = (i * l < j * k)%N.
Proof.
move=> k_gt0 l_gt0.
rewrite ltr_pdivrMr ?ltr0n // mulrAC ltr_pdivlMr ?ltr0n //.
by rewrite -!natrM ltr_nat.
Qed.

End WeightFacts.

Lemma weight_function_20 (F : realFieldType) :
  LCMVDataRetriever.weight_function F 20
  = [seq i%:R / 10%:R | i <- iota 0 10]
    ++ [seq i%:R / 6%:R | i <- iota 0 6]
    ++ [seq i%:R / 4%:R | i <- iota 0 4].
Proof.
rewrite /LCMVDataRetriever.weight_function.
have -> : LCMVDataRetriever.segment_length 5 20 = 10%N by [].
have -> : LCMVDataRetriever.segment_length 3 20 = 6%N by [].
have -> : LCMVDataRetriever.segment_length 2 20 = 4%N by [].
by rewrite !np_linspace_unit.
Qed.

(** C2.  The drift-weight sequence for [n] windows is [n] zeros when
    [n < 10]; otherwise it is three linear ramps from 0 to 1, endpoint left
    out, of lengths [floor(5n/10)], [floor(3n/10)] and [floor(2n/10)], one
    after the other.  For [n = 20] it has length 20, every value is in
    [0, 1), and it drops exactly twice: at index 10 and at index 16, the
    50% and 80% boundaries. *)
Theorem weight_function_shape (F : realFieldType) (n : nat) :
  let w := LCMVDataRetriever.weight_function F n in
  let w20 := LCMVDataRetriever.weight_function F 20 in
  [/\ if (n < 10)%N then w = nseq n 0
      else exists s1 s2 s3 : seq F,
             [/\ w = s1 ++ s2 ++ s3,
                 [/\ size s1 = ((5 * n) %/ 10)%N, size s2 = ((3 * n) %/ 10)%N
                   & size s3 = ((2 * n) %/ 10)%N]
               & [/\ is_ramp s1, is_ramp s2 & is_ramp s3]],
      size w20 = 20%N,
      all in_unit_interval w20
    & descents w20 = [:: 10; 16]%N].
Proof.
move=> w w20; split.
- rewrite /w /LCMVDataRetriever.weight_function; case: (n < 10)%N => //.
  exists (np_linspace_open (0 : F) 1 ((5 * n) %/ 10)).
  exists (np_linspace_open (0 : F) 1 ((3 * n) %/ 10)).
  exists (np_linspace_open (0 : F) 1 ((2 * n) %/ 10)).
  by split; [| split; rewrite size_mkseq | split; apply: is_ramp_linspace].
- by rewrite /w20 weight_function_20 !size_cat !size_map !size_iota.
- exact: weight_function_in_unit_interval.
- rewrite /w20 weight_function_20 /descents /=.
  by rewrite !fraction_lt.
Qed.

(** ** Normalization keeps the shape of a signal block *)

Section NormalizeFacts.

Variable F : realFieldType.
Variable np_sqrt : F -> F.

Lemma bdim_one (d : nat) : bdim d 1 = Some d.
Proof. by rewrite /bdim; case: eqP => [->|_] //; case: eqP. Qed.

Lemma broadcast_mx_expanded (f : F -> F -> F) (g : F -> F) (m n : nat)
    (A : 'M[F]_(m, n)) (v : seq F) :
  size v = m ->
  broadcast f (Matrix A) (np_map g (np_expand_dims_axis1 v))
  = Ok (Matrix (\matrix_(i, j) f (A i j) (g (nth 0 v i)))).
Proof.
move=> size_v; rewrite /broadcast /= size_v bdim_same bdim_one /=.
congr (Ok (Matrix _)); apply/matrixP => i j.
rewrite !mxE !bidx_ord mxnth_ord /bidx eqxx.
by rewrite (mxnth_ord _ i ord0) !mxE.
Qed.

Lemma np_mean_axis1_keepdims_mx (m n : nat) (A : 'M[F]_(m, n)) :
  np_mean_axis1_keepdims (Matrix A)
  = Ok (Matrix (\matrix_(i < m, j < 1) row_mean A i)).
Proof. by []. Qed.

Lemma np_var_axis1_mx (m n : nat) (A : 'M[F]_(m, n)) :
  np_var_axis1 (Matrix A) = Ok (mkseq (row_var A) m).
Proof. by []. Qed.

Lemma np_num_mul_mx (m n : nat) (A : 'M[F]_(m, n)) (c : F) :
  np_num_mul c (Matrix A) = Matrix (c *: A).
Proof.
by rewrite /np_num_mul /=; congr Matrix; apply/matrixP => i j; rewrite !mxE.
Qed.

(** The value of [normalize] on a 2-d array. *)
Definition normalized (m n : nat) (A : 'M[F]_(m, n)) (scale : F)
    : 'M[F]_(m, n) :=
  \matrix_(i, j) (scale * (A i j - row_mean A i) / np_sqrt (row_var A i)).

Lemma normalize_mx (m n : nat) (A : 'M[F]_(m, n)) (scale : F) :
  Utils.normalize np_sqrt (Matrix A) scale
  = Ok (Matrix (normalized A scale)).
Proof.
rewrite /Utils.normalize np_mean_axis1_keepdims_mx np_var_axis1_mx !bind_Ok.
rewrite /np_sub broadcast_mx_col bind_Ok /np_div np_num_mul_mx.
rewrite broadcast_mx_expanded ?size_mkseq //.
congr (Ok (Matrix _)); apply/matrixP => i j.
by rewrite !mxE nth_mkseq.
Qed.

End NormalizeFacts.

(** ** Python indexing *)

Section IndexFacts.

Variable T : Type.
Implicit Types (s : seq T) (k : nat).

Lemma py_index_nat s k (x0 : T) :
  (k < size s)%N -> py_index s (Posz k) = Ok (nth x0 s k).
Proof.
by case: s => [|x s] //= lt_k; rewrite lt_k; congr Ok; apply: set_nth_default.
Qed.

Lemma py_index_beyond s k :
  (size s <= k)%N -> py_index s (Posz k) = Raise IndexError.
Proof. by case: s => [|x s] //= le_k; rewrite [(k < _)%N]ltnNge le_k. Qed.

Lemma py_index_below s k :
  (size s <= k)%N -> py_index s (Negz k) = Raise IndexError.
Proof. by case: s => [|x s] //= le_k; rewrite [(k < _)%N]ltnNge le_k. Qed.

Lemma py_index_wrap s k :
  (k < size s)%N -> py_index s (Negz k) = py_index s (Posz (size s - k.+1)).
Proof.
case: s => [|x s] //= lt_k; rewrite lt_k.
by rewrite subSS ltnS leq_subr.
Qed.

(** The whole of it: outside [-len, len) an [IndexError]; inside, a negative
    index [i] reads position [len + i]. *)
Lemma py_index_cases s (i : int) :
  py_index s i
  = if (i < - (size s)%:Z) || ((size s)%:Z <= i) then Raise IndexError
    else py_index s (if i < 0 then i + (size s)%:Z else i).
Proof.
case: i => k.
- have -> : (Posz k < - (size s)%:Z) = false.
    by apply/negbTE; rewrite -leNgt (@le_trans _ _ 0) // oppr_le0.
  have -> : (Posz k < 0) = false by [].
  by rewrite orFb lez_nat; case: leqP => [/py_index_beyond|].
- have -> : (Negz k < - (size s)%:Z) = (size s <= k)%N.
    by rewrite NegzE ltrN2 ltz_nat ltnS.
  have -> : ((size s)%:Z <= Negz k) = false by [].
  have -> : (Negz k < 0) = true by [].
  rewrite orbF; case: leqP => [/py_index_below //|lt_k].
  rewrite py_index_wrap //; congr (py_index s _).
  by rewrite NegzE addrC -subzn.
Qed.

End IndexFacts.

(** ** The LCMV data retriever *)

Section RetrieverFacts.

Variable F : realFieldType.
Variable np_sqrt : F -> F.
Variable rng_state : Type.
Variable rng_normal :
  F -> F -> forall m n : nat, rng_state -> 'M[F]_(m, n) * rng_state.
Variable rng_standard_normal :
  forall m n : nat, rng_state -> 'M[F]_(m, n) * rng_state.

Local Notation retriever := (LCMVDataRetriever.t F).
Local Notation init :=
  (LCMVDataRetriever.init np_sqrt rng_normal rng_standard_normal).
Local Notation get_data_window := (LCMVDataRetriever.get_data_window np_sqrt).
Local Notation weight_function := (LCMVDataRetriever.weight_function F).

(** The arrays of a retriever fit each other: [D] is (sources, samples),
    [A_0] and [Delta] are (sensors, sources), [noise] is (sensors, samples). *)
Definition well_shaped (sensors sources samples : nat) (r : retriever)
    : Prop :=
  exists (D0 : 'M[F]_(sources, samples)) (A0 Del : 'M[F]_(sensors, sources))
         (N0 : 'M[F]_(sensors, samples)),
    [/\ LCMVDataRetriever.D r = Matrix D0,
        LCMVDataRetriever.A_0 r = Matrix A0,
        LCMVDataRetriever.Delta r = Matrix Del
      & LCMVDataRetriever.noise r = Matrix N0].

Section Constructed.

Variables (dwp : DataWindowParameters).
Variables (nb_sensors nb_sources nb_windows : nat) (rng : rng_state).
Variables (nb_filters : nat) (nb_steering : option nat).
Variables (signal_var noise_var mixture_var diff_var : F).

Let r : retriever :=
  (init dwp nb_sensors nb_sources nb_windows rng nb_filters nb_steering
     signal_var noise_var mixture_var diff_var).1.

Lemma init_well_shaped :
  well_shaped nb_sensors nb_sources (window_length dwp) r.
Proof.
rewrite /r /LCMVDataRetriever.init.
case: (rng_normal _ _ _ _ _) => D0 rng1.
case: (rng_normal _ _ _ _ _) => A0 rng2.
case: (rng_normal _ _ _ _ _) => Del rng3.
case: (rng_normal _ _ _ _ _) => N0 rng4.
case: (rng_standard_normal _ _ _) => H0 rng5.
by do 4![eexists]; split; reflexivity.
Qed.

Lemma init_weights :
  LCMVDataRetriever.weights r = weight_function nb_windows.
Proof.
rewrite /r /LCMVDataRetriever.init.
case: (rng_normal _ _ _ _ _) => D0 rng1.
case: (rng_normal _ _ _ _ _) => A0 rng2.
case: (rng_normal _ _ _ _ _) => Del rng3.
case: (rng_normal _ _ _ _ _) => N0 rng4.
by case: (rng_standard_normal _ _ _) => H0 rng5.
Qed.

Lemma init_steering :
  exists (A0 : 'M[F]_(nb_sensors, nb_sources))
         (H0 : 'M[F]_(nb_filters, odflt nb_filters nb_steering)),
    [/\ LCMVDataRetriever.A_0 r = Matrix A0,
        LCMVDataRetriever.B r = np_cols_upto A0 nb_steering,
        LCMVDataRetriever.H r = Matrix H0,
        LCMVDataRetriever.nb_filters r = nb_filters
      & LCMVDataRetriever.nb_steering r = odflt nb_filters nb_steering].
Proof.
rewrite /r /LCMVDataRetriever.init.
case: (rng_normal _ _ _ _ _) => D0 rng1.
case: (rng_normal _ _ _ _ _) => A0 rng2.
case: (rng_normal _ _ _ _ _) => Del rng3.
case: (rng_normal _ _ _ _ _) => N0 rng4.
have -> : (if nb_steering is Some p then p else nb_filters)
          = odflt nb_filters nb_steering by case: nb_steering.
case: (rng_standard_normal _ _ _) => H0 rng5 /=.
by exists A0, H0.
Qed.

End Constructed.

Lemma size_weight_function (n : nat) : (size (weight_function n) <= n)%N.
Proof.
rewrite /LCMVDataRetriever.weight_function; case: ltnP => [_|le_n].
  by rewrite size_nseq.
rewrite !size_cat !size_mkseq /LCMVDataRetriever.segment_length.
rewrite -(leq_pmul2r (isT : 0 < 10)%N) !mulnDl.
have -> : (n * 10 = 5 * n + 3 * n + 2 * n)%N by rewrite -!mulnDl mulnC.
by rewrite -addnA !leq_add // leq_trunc_div.
Qed.

Lemma get_data_window_cases (r : retriever) (window_id : int) :
  let len := (size (LCMVDataRetriever.weights r))%:Z in
  get_data_window r window_id
  = if (window_id < - len) || (len <= window_id) then Raise IndexError
    else get_data_window r (if window_id < 0 then window_id + len
                            else window_id).
Proof.
rewrite /LCMVDataRetriever.get_data_window /=.
rewrite (py_index_cases (LCMVDataRetriever.weights r) window_id).
by case: ifP.
Qed.

Lemma get_data_window_ok (sensors sources samples : nat) (r : retriever)
    (window_id : int) (w : F) :
  well_shaped sensors sources samples r ->
  py_index (LCMVDataRetriever.weights r) window_id = Ok w ->
  exists Y : 'M[F]_(sensors, samples),
    get_data_window r window_id
    = Ok (mkProblemInputs [:: Matrix Y] [:: LCMVDataRetriever.B r]
            [:: LCMVDataRetriever.H r]).
Proof.
case=> D0 [A0 [Del [N0 [eqD eqA eqDel eqN]]]] eq_w.
rewrite /LCMVDataRetriever.get_data_window eq_w bind_Ok eqD eqA eqDel eqN.
rewrite np_mul_num_mx np_add_mx bind_Ok np_matmul_mx bind_Ok np_add_mx.
by rewrite bind_Ok normalize_mx bind_Ok; eexists.
Qed.

Lemma py_index_in_range (T : Type) (s : seq T) (i : int) :
  - (size s)%:Z <= i < (size s)%:Z -> exists x, py_index s i = Ok x.
Proof.
case: s => [|x0 s]; first by case: i => k /andP[]; rewrite ?ltz_nat.
case: i => k /andP[lo hi].
- by exists (nth x0 (x0 :: s) k); apply: py_index_nat.
- have lt_k : (k < size (x0 :: s))%N.
    by move: lo; rewrite NegzE lerN2 lez_nat.
  rewrite py_index_wrap //; eexists; apply: (py_index_nat x0).
  by rewrite /= subSS ltnS leq_subr.
Qed.

End RetrieverFacts.

(** C4 fails as stated: with 10 windows, [window_id = -1] lies outside
    [0, 10) and still the retrieval does not fail; it returns the window of
    index 9, counted from the end. *)
Lemma get_data_window_wraps_around :
  let r := example_retriever 10 None in
  LCMVDataRetriever.get_data_window id r (-1)
  = LCMVDataRetriever.get_data_window id r 9%:Z
  /\ is_ok (LCMVDataRetriever.get_data_window id r (-1)).
Proof.
move=> r.
have size_w : size (LCMVDataRetriever.weights r) = 10%N.
  by rewrite init_weights; reflexivity.
have eq_w : LCMVDataRetriever.get_data_window id r (-1)
            = LCMVDataRetriever.get_data_window id r 9%:Z.
  by rewrite get_data_window_cases size_w.
split; first exact: eq_w.
rewrite eq_w.
have [w w_def] : exists w, py_index (LCMVDataRetriever.weights r) 9%:Z = Ok w.
  by apply: py_index_in_range; rewrite size_w.
have [Y ->] := get_data_window_ok id
                 (init_well_shaped _ _ _ _ _ _ _ _ _ _ _ _ _ _) w_def.
by [].
Qed.

(** C4, amended.  For a retriever constructed for [nb_windows] windows, whose
    weight sequence has [len <= nb_windows] entries: a [window_id] with
    [window_id >= nb_windows] or [window_id < - nb_windows] fails with an
    [IndexError]; more precisely the retrieval fails exactly outside
    [-len, len), a negative [window_id] in that range is answered with the
    window of index [len + window_id], and every index in the range gets a
    window. *)
Theorem get_data_window_index (F : realFieldType) (np_sqrt : F -> F)
    (rng_state : Type)
    (rng_normal :
       F -> F -> forall m n : nat, rng_state -> 'M[F]_(m, n) * rng_state)
    (rng_standard_normal :
       forall m n : nat, rng_state -> 'M[F]_(m, n) * rng_state)
    (dwp : DataWindowParameters) (nb_sensors nb_sources nb_windows : nat)
    (rng : rng_state) (nb_filters : nat) (nb_steering : option nat)
    (signal_var noise_var mixture_var diff_var : F) (window_id : int) :
  let r :=
    (LCMVDataRetriever.init np_sqrt rng_normal rng_standard_normal dwp
       nb_sensors nb_sources nb_windows rng nb_filters nb_steering
       signal_var noise_var mixture_var diff_var).1 in
  let len := size (LCMVDataRetriever.weights r) in
  let get := LCMVDataRetriever.get_data_window np_sqrt r in
  [/\ (len <= nb_windows)%N,
      (window_id < - nb_windows%:Z) || (nb_windows%:Z <= window_id) ->
        get window_id = Raise IndexError,
      get window_id
      = (if (window_id < - len%:Z) || (len%:Z <= window_id)
         then Raise IndexError
         else get (if window_id < 0 then window_id + len%:Z else window_id))
    & - len%:Z <= window_id < len%:Z -> is_ok (get window_id)].
Proof.
move=> r len get.
have le_len : (len <= nb_windows)%N.
  by rewrite /len init_weights size_weight_function.
split=> //.
- move=> out; rewrite /get get_data_window_cases -/len.
  suff -> : (window_id < - len%:Z) || (len%:Z <= window_id) by [].
  case/orP: out => [lo|hi]; apply/orP; [left|right].
    by apply: lt_le_trans lo _; rewrite lerN2 lez_nat.
  by apply: le_trans hi; rewrite lez_nat.
- exact: get_data_window_cases.
- case/py_index_in_range=> w w_def; rewrite /get /r.
  by have [Y ->] := get_data_window_ok np_sqrt
                      (init_well_shaped _ _ _ _ _ _ _ _ _ _ _ _ _ _) w_def.
Qed.

(** ** The legacy retriever against the canonical one *)

Lemma legacy_weight_function_eq (F : realFieldType) (nb_windows : nat) :
  (nb_windows == 0%N) || (10 <= nb_windows)%N ->
  LegacyDataRetriever.weight_function F nb_windows
  = LCMVDataRetriever.weight_function F nb_windows.
Proof.
rewrite /LegacyDataRetriever.weight_function
        /LCMVDataRetriever.weight_function.
case/orP=> [/eqP -> //|le_n].
by rewrite ltnNge le_n.
Qed.

(** C6 fails as stated: for 4 windows the legacy weight sequence is the three
    values of its ramps, the canonical one is four zeros. *)
Lemma legacy_weight_function_differs :
  LegacyDataRetriever.weight_function rat 4
  <> LCMVDataRetriever.weight_function rat 4.
Proof. by move/(congr1 size). Qed.

(** C6, amended.  Built from the same generator state and the same
    hyperparameters, the sample length passed as [nb_samples] to the one and
    inside the windowing parameters to the other, the legacy and the
    canonical retriever have the same weight sequence, leave the generator
    in the same state and answer every window index alike, provided the
    window count is 0 or at least 10 (below 10 the legacy module has no
    all-zero case). *)
Theorem legacy_retriever_equivalent (F : realFieldType) (np_sqrt : F -> F)
    (rng_state : Type)
    (rng_normal :
       F -> F -> forall m n : nat, rng_state -> 'M[F]_(m, n) * rng_state)
    (rng_standard_normal :
       forall m n : nat, rng_state -> 'M[F]_(m, n) * rng_state)
    (dwp : DataWindowParameters) (nb_sensors nb_sources nb_windows : nat)
    (rng : rng_state) (nb_filters : nat) (nb_steering : option nat)
    (signal_var noise_var mixture_var diff_var : F) (window_id : int) :
  (nb_windows == 0%N) || (10 <= nb_windows)%N ->
  let legacy :=
    LegacyDataRetriever.init np_sqrt rng_normal rng_standard_normal
      (window_length dwp) nb_sensors nb_sources nb_windows rng nb_filters
      nb_steering signal_var noise_var mixture_var diff_var in
  let canonical :=
    LCMVDataRetriever.init np_sqrt rng_normal rng_standard_normal dwp
      nb_sensors nb_sources nb_windows rng nb_filters nb_steering
      signal_var noise_var mixture_var diff_var in
  [/\ LegacyDataRetriever.weights legacy.1
      = LCMVDataRetriever.weights canonical.1,
      legacy.2 = canonical.2
    & LegacyDataRetriever.get_current_window np_sqrt legacy.1 window_id
      = LCMVDataRetriever.get_data_window np_sqrt canonical.1 window_id].
Proof.
move=> /legacy_weight_function_eq eq_w legacy canonical.
rewrite /legacy /canonical /LegacyDataRetriever.init /LCMVDataRetriever.init.
case: (rng_normal _ _ _ _ _) => D0 rng1.
case: (rng_normal _ _ _ _ _) => A0 rng2.
case: (rng_normal _ _ _ _ _) => Del rng3.
case: (rng_normal _ _ _ _ _) => N0 rng4.
case: (rng_standard_normal _ _ _) => H0 rng5.
rewrite /LegacyDataRetriever.get_current_window
        /LCMVDataRetriever.get_data_window.
by split; rewrite /= ?eq_w.
Qed.

Lemma legacy_retriever_equivalent_witness :
  LegacyDataRetriever.get_current_window id
    (LegacyDataRetriever.init id counting_normal counting_standard_normal
       2 1 1 10 0%N 2 None (1 / 2%:R) (1 / 10%:R) (1 / 2%:R) 1).1 3%:Z
  = LCMVDataRetriever.get_data_window id (example_retriever 10 None) 3%:Z.
Proof.
by have [] := @legacy_retriever_equivalent rat id nat counting_normal
                counting_standard_normal (mkDataWindowParameters 2 1) 1 1 10
                0%N 2 None (1 / 2%:R) (1 / 10%:R) (1 / 2%:R) 1 3%:Z isT.
Defined.

(** ** Determinism *)


Lemma gen_update_same (rng_state : Type) (st : gen_store rng_state)
    (g : nat) (s : rng_state) :
  gen_update st g s g = s.
Proof. by rewrite /gen_update eqxx. Qed.



(** ** The default number of steering vectors *)

Section SteeringDefault.

Variable F : realFieldType.

(** When the steering matrix and the constraint target disagree on their
    column counts, [solve] cannot return: the last product [... @ H.T] does
    not fit, unless one of the two inversions before it has failed
    already. *)
Lemma lcmv_solve_mismatch (m n p q p' : nat)
    (Y : 'M[F]_(m, n)) (B : 'M[F]_(m, p)) (H : 'M[F]_(q, p')) (Ryy : 'M[F]_m)
    (self : OptimizationProblem F) (save_solution : bool) :
  Utils.autocorrelation_matrix (Matrix Y) None = Ok (Matrix Ryy) ->
  p != p' ->
  LCMVProblem.solve self
    (mkProblemInputs [:: Matrix Y] [:: Matrix B] [:: Matrix H]) save_solution
  = if (Ryy \in unitmx) && (B^T *m invmx Ryy *m B \in unitmx)
    then Raise ValueError else Raise LinAlgError.
Proof.
move=> Ryy_def neq_p.
rewrite /LCMVProblem.solve !py_index_head !bind_Ok Ryy_def bind_Ok.
case Ryy_unit: (Ryy \in unitmx); last first.
  by rewrite np_linalg_inv_singular ?Ryy_unit.
rewrite andTb np_linalg_inv_mx // bind_Ok np_matmul_mx !bind_Ok np_T_mx.
rewrite np_matmul_mx bind_Ok np_matmul_mx bind_Ok.
case gram_unit: (B^T *m invmx Ryy *m B \in unitmx); last first.
  by rewrite np_linalg_inv_singular ?gram_unit.
rewrite np_linalg_inv_mx // bind_Ok.
by rewrite np_matmul_mx bind_Ok np_T_mx np_matmul_mx_mismatch.
Qed.

End SteeringDefault.

(** C10.  Constructed with [nb_steering] left out, the retriever stores all
    of [A_0] as steering matrix [B], [nb_sources] columns wide, while the
    stored [nb_steering] and both dimensions of [H] are [nb_filters].  When
    [nb_sources] and [nb_filters] differ, so do the column counts of [B] and
    [H], and [solve] never returns on a window of this retriever: its last
    product does not fit ([ValueError]), unless one of the two inversions
    before it has already failed ([LinAlgError]). *)
Theorem default_steering_mismatch (F : realFieldType) (np_sqrt : F -> F)
    (rng_state : Type)
    (rng_normal :
       F -> F -> forall m n : nat, rng_state -> 'M[F]_(m, n) * rng_state)
    (rng_standard_normal :
       forall m n : nat, rng_state -> 'M[F]_(m, n) * rng_state)
    (dwp : DataWindowParameters) (nb_sensors nb_sources nb_windows : nat)
    (rng : rng_state) (nb_filters : nat)
    (signal_var noise_var mixture_var diff_var : F) (window_id : int)
    (self : OptimizationProblem F) (save_solution : bool) :
  nb_sources != nb_filters ->
  let r :=
    (LCMVDataRetriever.init np_sqrt rng_normal rng_standard_normal dwp
       nb_sensors nb_sources nb_windows rng nb_filters None
       signal_var noise_var mixture_var diff_var).1 in
  let get := LCMVDataRetriever.get_data_window np_sqrt r in
  [/\ [/\ LCMVDataRetriever.B r = LCMVDataRetriever.A_0 r,
          np_shape (LCMVDataRetriever.B r) = [:: nb_sensors; nb_sources],
          LCMVDataRetriever.nb_steering r = nb_filters,
          np_shape (LCMVDataRetriever.H r) = [:: nb_filters; nb_filters]
        & ncols (LCMVDataRetriever.B r) != ncols (LCMVDataRetriever.H r)],
      ~~ is_ok (do problem_inputs <-- get window_id;
                LCMVProblem.solve self problem_inputs save_solution)
    & forall problem_inputs : ProblemInputs F,
        get window_id = Ok problem_inputs ->
        exists (Y : 'M[F]_(nb_sensors, window_length dwp))
               (Ryy : 'M[F]_nb_sensors) (B : 'M[F]_(nb_sensors, nb_sources)),
          [/\ fused_signals problem_inputs = [:: Matrix Y],
              fused_constants problem_inputs = [:: Matrix B],
              Utils.autocorrelation_matrix (Matrix Y) None = Ok (Matrix Ryy)
            & LCMVProblem.solve self problem_inputs save_solution
              = if (Ryy \in unitmx) && (B^T *m invmx Ryy *m B \in unitmx)
                then Raise ValueError else Raise LinAlgError]].
Proof.
move=> neq_LQ r get.
have [A0 [H0 [eqA eqB eqH eqQ eqP]]] :=
  init_steering np_sqrt rng_normal rng_standard_normal dwp nb_sensors
    nb_sources nb_windows rng nb_filters None signal_var noise_var
    mixture_var diff_var.
rewrite -/r /= in A0 H0 eqA eqB eqH eqQ eqP.
have wsh : well_shaped nb_sensors nb_sources (window_length dwp) r.
  exact: init_well_shaped.
have solve_inputs (problem_inputs : ProblemInputs F) :
    get window_id = Ok problem_inputs ->
    exists (Y : 'M[F]_(nb_sensors, window_length dwp))
           (Ryy : 'M[F]_nb_sensors) (B : 'M[F]_(nb_sensors, nb_sources)),
      [/\ fused_signals problem_inputs = [:: Matrix Y],
          fused_constants problem_inputs = [:: Matrix B],
          Utils.autocorrelation_matrix (Matrix Y) None = Ok (Matrix Ryy)
        & LCMVProblem.solve self problem_inputs save_solution
          = if (Ryy \in unitmx) && (B^T *m invmx Ryy *m B \in unitmx)
            then Raise ValueError else Raise LinAlgError].
  move=> get_eq.
  have [w w_def _] := bind_eq_Ok get_eq.
  have [Y Y_def] := get_data_window_ok np_sqrt wsh w_def.
  have eq_inputs := Ok_inj (etrans (esym get_eq) Y_def).
  exists Y.
  exists (average_with_transpose
            ((normalizer_value F None (window_length dwp))^-1 *: (Y *m Y^T))).
  exists A0; rewrite eq_inputs eqB eqH; split=> //.
    exact: autocorrelation_matrix_mx.
  by apply: lcmv_solve_mismatch neq_LQ; apply: autocorrelation_matrix_mx.
split.
- by rewrite eqB eqA eqH eqP; split.
- case get_eq: (get window_id) => [problem_inputs|e] //.
  rewrite bind_Ok.
  have [Y [Ryy [B [_ _ _ ->]]]] := solve_inputs _ get_eq.
  by case: ifP.
- exact: solve_inputs.
Qed.

Lemma default_steering_mismatch_witness :
  let r := example_retriever 10 None in
  ~~ is_ok (do problem_inputs <-- LCMVDataRetriever.get_data_window id r 3%:Z;
            LCMVProblem.solve (LCMVProblem.init rat 2) problem_inputs false).
Proof.
by have [] := @default_steering_mismatch rat id nat counting_normal
                counting_standard_normal (mkDataWindowParameters 2 1) 1 1 10
                0%N 2 (1 / 2%:R) (1 / 10%:R) (1 / 2%:R) 1 3%:Z
                (LCMVProblem.init rat 2) false isT.
Defined.

(** * Further properties of the code *)

(** ** The objectives as mean powers *)

Section Objectives.

Variable F : realFieldType.

(** The sum of the squared entries of a matrix. *)
Definition sum_squares (m n : nat) (A : 'M[F]_(m, n)) : F :=
  \sum_i \sum_j A i j ^+ 2.

Lemma sum_squares_ge0 (m n : nat) (A : 'M[F]_(m, n)) : 0 <= sum_squares A.
Proof.
by apply: sumr_ge0 => i _; apply: sumr_ge0 => j _; apply: sqr_ge0.
Qed.

Lemma mxtrace_mul_tr (m n : nat) (A : 'M[F]_(m, n)) :
  \tr (A *m A^T) = sum_squares A.
Proof.
rewrite /mxtrace /sum_squares; apply: eq_bigr => i _.
by rewrite mxE; apply: eq_bigr => j _; rewrite mxE expr2.
Qed.

Lemma np_trace_mx (q : nat) (A : 'M[F]_q) : np_trace (Matrix A) = Ok (\tr A).
Proof.
rewrite /np_trace /mxtrace; congr Ok.
rewrite -(big_mkord xpredT (fun i => mxnth A i i)) minnn big_mkord.
by apply: eq_bigr => i _; rewrite mxnth_ord.
Qed.

Lemma average_with_transpose_id (n : nat) (M : 'M[F]_n) :
  M^T = M -> average_with_transpose M = M.
Proof.
move=> symM; rewrite /average_with_transpose symM -mulr2n -scaler_nat.
by rewrite scalerA mulVf ?scale1r // pnatr_eq0.
Qed.

(** Without a normalizer, [autocorrelation_matrix Y] is [(Y Y^T) / n]: the
    averaging with the transpose changes nothing in exact arithmetic. *)
Lemma autocorrelation_matrix_gram (m n : nat) (Y : 'M[F]_(m, n)) :
  Utils.autocorrelation_matrix (Matrix Y) None
  = Ok (Matrix (n%:R^-1 *: (Y *m Y^T))).
Proof.
rewrite autocorrelation_matrix_mx /normalizer_value -pmulrn.
by rewrite average_with_transpose_id // linearZ /= trmx_mul trmxK.
Qed.

Lemma lcmv_evaluate_objective_mx (m n q : nat)
    (X : 'M[F]_(m, q)) (Y : 'M[F]_(m, n)) (consts params : seq (ndarray F)) :
  LCMVProblem.evaluate_objective (Matrix X)
    (mkProblemInputs [:: Matrix Y] consts params)
  = Ok (n%:R^-1 * sum_squares (X^T *m Y)).
Proof.
rewrite /LCMVProblem.evaluate_objective py_index_head bind_Ok.
rewrite autocorrelation_matrix_gram bind_Ok np_T_mx np_matmul_mx bind_Ok.
rewrite np_matmul_mx bind_Ok np_trace_mx; congr Ok.
rewrite -mxtrace_mul_tr trmx_mul trmxK -scalemxAr -scalemxAl mxtraceZ.
by rewrite !mulmxA.
Qed.

Lemma sum_squares_sub (m n : nat) (A B : 'M[F]_(m, n)) :
  sum_squares (A - B)
  = sum_squares A - 2%:R * \tr (B *m A^T) + sum_squares B.
Proof.
rewrite -!mxtrace_mul_tr linearB /= mulmxBl !mulmxBr !raddfB /=.
rewrite -[\tr (A *m B^T)]mxtrace_tr trmx_mul trmxK.
set a := \tr (A *m A^T); set b := \tr (B *m A^T); set c := \tr (B *m B^T).
by rewrite opprK addrA -[a - b - b]addrA -opprD -mulr2n -mulr_natl.
Qed.

Lemma sum_squares_add (m n : nat) (A B : 'M[F]_(m, n)) :
  sum_squares (A + B)
  = sum_squares A + 2%:R * \tr (B *m A^T) + sum_squares B.
Proof.
rewrite -!mxtrace_mul_tr linearD /= mulmxDl !mulmxDr !raddfD /=.
rewrite -[\tr (A *m B^T)]mxtrace_tr trmx_mul trmxK.
set a := \tr (A *m A^T); set b := \tr (B *m A^T); set c := \tr (B *m B^T).
by rewrite addrA -[a + b + b]addrA -mulr2n -mulr_natl.
Qed.

Lemma mmse_evaluate_objective_mx (m n q : nat)
    (X : 'M[F]_(m, q)) (Y : 'M[F]_(m, n)) (D : 'M[F]_(q, n))
    (consts : seq (ndarray F)) :
  MMSEProblem.evaluate_objective (Matrix X)
    (mkProblemInputs [:: Matrix Y] consts [:: Matrix D])
  = Ok (n%:R^-1 * sum_squares (D - X^T *m Y)).
Proof.
rewrite /MMSEProblem.evaluate_objective !py_index_head !bind_Ok.
rewrite !autocorrelation_matrix_gram !bind_Ok cross_correlation_matrix_mx.
rewrite np_T_mx !(np_matmul_mx, np_trace_mx, bind_Ok); congr Ok.
rewrite /normalizer_value -pmulrn sum_squares_sub -!mxtrace_mul_tr.
rewrite !trmx_mul !trmxK -!scalemxAr -!scalemxAl !mxtraceZ !mulmxA.
set c := n%:R^-1; set a := \tr (_ *m X); set b := \tr (_ *m D^T).
set d := \tr (D *m D^T).
rewrite !mulrDr mulrN [c * (_ * b)]mulrCA addrAC [in RHS]addrAC.
by rewrite [c * a + _]addrC.
Qed.

End Objectives.

(** X1.  The LCMV objective [trace(X^T Ryy X)] is the mean output power: the
    sum of the squared entries of [X^T Y] divided by the number of samples;
    it is never negative. *)
Theorem lcmv_objective_mean_power (F : realFieldType) (m n q : nat)
    (X : 'M[F]_(m, q)) (Y : 'M[F]_(m, n)) (consts params : seq (ndarray F)) :
  LCMVProblem.evaluate_objective (Matrix X)
    (mkProblemInputs [:: Matrix Y] consts params)
  = Ok (n%:R^-1 * sum_squares (X^T *m Y))
  /\ 0 <= n%:R^-1 * sum_squares (X^T *m Y).
Proof.
split; first exact: lcmv_evaluate_objective_mx.
by rewrite mulr_ge0 ?invr_ge0 ?ler0n ?sum_squares_ge0.
Qed.

(** X2.  The MMSE objective
    [trace(X^T Ryy X) - 2 trace(X^T Ryd) + trace(Rdd)] is the mean squared
    error: the sum of the squared entries of [D - X^T Y] divided by the
    number of samples; it is never negative. *)
Theorem mmse_objective_mean_squared_error (F : realFieldType) (m n q : nat)
    (X : 'M[F]_(m, q)) (Y : 'M[F]_(m, n)) (D : 'M[F]_(q, n))
    (consts : seq (ndarray F)) :
  MMSEProblem.evaluate_objective (Matrix X)
    (mkProblemInputs [:: Matrix Y] consts [:: Matrix D])
  = Ok (n%:R^-1 * sum_squares (D - X^T *m Y))
  /\ 0 <= n%:R^-1 * sum_squares (D - X^T *m Y).
Proof.
split; first exact: mmse_evaluate_objective_mx.
by rewrite mulr_ge0 ?invr_ge0 ?ler0n ?sum_squares_ge0.
Qed.

(** ** Optimality of the closed forms *)

Section Optimality.

Variable F : realFieldType.
Variables (m n : nat) (Y : 'M[F]_(m, n)).

Let Ryy : 'M[F]_m := n%:R^-1 *: (Y *m Y^T).

Lemma gram_sym : Ryy^T = Ryy.
Proof. by rewrite /Ryy linearZ /= trmx_mul trmxK. Qed.

(** The cross term of the objective between a point [Xs] and a move [E]. *)
Lemma cross_term (q : nat) (E Xs : 'M[F]_(m, q)) :
  n%:R^-1 * \tr ((E^T *m Y) *m (Xs^T *m Y)^T) = \tr (E^T *m (Ryy *m Xs)).
Proof.
by rewrite trmx_mul trmxK -mxtraceZ /Ryy -!scalemxAl -scalemxAr !mulmxA.
Qed.

Lemma mmse_gap (q : nat) (D : 'M[F]_(q, n)) (X : 'M[F]_(m, q)) :
  Ryy \in unitmx ->
  let Xs := invmx Ryy *m (n%:R^-1 *: (Y *m D^T)) in
  n%:R^-1 * sum_squares (D - X^T *m Y)
  = n%:R^-1 * sum_squares (D - Xs^T *m Y)
    + n%:R^-1 * sum_squares ((X - Xs)^T *m Y).
Proof.
move=> Ryy_unit Xs.
have -> : D - X^T *m Y = (D - Xs^T *m Y) - (X - Xs)^T *m Y.
  by rewrite linearB /= mulmxBl opprB addrA subrK.
rewrite sum_squares_sub !mulrDr mulrN mulrCA.
suff -> : n%:R^-1 * \tr ((X - Xs)^T *m Y *m (D - Xs^T *m Y)^T) = 0.
  by rewrite mulr0 subr0.
rewrite [(D - _)^T]linearB /= mulmxBr raddfB /= mulrBr cross_term.
rewrite [Ryy *m Xs]mulKVmx // -scalemxAr mxtraceZ mulmxA.
by rewrite subrr.
Qed.

Lemma lcmv_gap (p q : nat) (B : 'M[F]_(m, p)) (H : 'M[F]_(q, p))
    (X : 'M[F]_(m, q)) :
  Ryy \in unitmx -> B^T *m invmx Ryy *m B \in unitmx ->
  X^T *m B = H ->
  let Xs := invmx Ryy *m B *m invmx (B^T *m invmx Ryy *m B) *m H^T in
  n%:R^-1 * sum_squares (X^T *m Y)
  = n%:R^-1 * sum_squares (Xs^T *m Y)
    + n%:R^-1 * sum_squares ((X - Xs)^T *m Y).
Proof.
move=> Ryy_unit gram_unit feasible Xs.
have Ryy_def : Utils.autocorrelation_matrix (Matrix Y) None = Ok (Matrix Ryy).
  exact: autocorrelation_matrix_gram.
have feasible_s : Xs^T *m B = H.
  exact: (lcmv_constraint_holds H Ryy_def gram_unit).
have -> : X^T *m Y = Xs^T *m Y + (X - Xs)^T *m Y.
  by rewrite linearB /= mulmxBl addrC subrK.
rewrite sum_squares_add !mulrDr mulrCA.
suff -> : n%:R^-1 * \tr ((X - Xs)^T *m Y *m (Xs^T *m Y)^T) = 0.
  by rewrite mulr0 addr0.
rewrite cross_term /Xs -!mulmxA mulKVmx // !mulmxA.
by rewrite linearB /= mulmxBl feasible feasible_s subrr !mul0mx mxtrace0.
Qed.

End Optimality.

Lemma autocorrelation_matrix_value (F : realFieldType) (m n : nat)
    (Y : 'M[F]_(m, n)) (Ryy : 'M[F]_m) :
  Utils.autocorrelation_matrix (Matrix Y) None = Ok (Matrix Ryy) ->
  Ryy = n%:R^-1 *: (Y *m Y^T).
Proof.
by rewrite autocorrelation_matrix_gram => eqR; rewrite (Matrix_inj (Ok_inj eqR)).
Qed.

(** X3.  When [Ryy] is invertible, the estimator returned by the MMSE [solve]
    minimizes the MMSE objective: no estimator [X] of the same shape has a
    smaller [evaluate_objective]. *)
Theorem mmse_solve_minimizes (F : realFieldType) (m n q : nat)
    (Y : 'M[F]_(m, n)) (D : 'M[F]_(q, n)) (Ryy : 'M[F]_m)
    (consts : seq (ndarray F)) (self : OptimizationProblem F)
    (save_solution : bool) (X : 'M[F]_(m, q)) :
  Utils.autocorrelation_matrix (Matrix Y) None = Ok (Matrix Ryy) ->
  Ryy \in unitmx ->
  let problem_inputs := mkProblemInputs [:: Matrix Y] consts [:: Matrix D] in
  exists (X_star : 'M[F]_(m, q)) (f_star f : F),
    [/\ MMSEProblem.solve self problem_inputs save_solution
        = Ok (Matrix X_star,
              if save_solution
              then mkProblem (nb_filters self) (Some (Matrix X_star))
              else self),
        MMSEProblem.evaluate_objective (Matrix X_star) problem_inputs
        = Ok f_star,
        MMSEProblem.evaluate_objective (Matrix X) problem_inputs = Ok f
      & f_star <= f].
Proof.
move=> Ryy_def Ryy_unit problem_inputs.
exists (invmx Ryy *m (n%:R^-1 *: (Y *m D^T))).
exists (n%:R^-1 * sum_squares
          (D - (invmx Ryy *m (n%:R^-1 *: (Y *m D^T)))^T *m Y)).
exists (n%:R^-1 * sum_squares (D - X^T *m Y)).
split.
- exact: mmse_solve_mx.
- exact: mmse_evaluate_objective_mx.
- exact: mmse_evaluate_objective_mx.
- move: Ryy_unit; rewrite (autocorrelation_matrix_value Ryy_def) => Ryy_unit.
  rewrite (mmse_gap D X Ryy_unit) lerDl.
  by rewrite mulr_ge0 ?invr_ge0 ?ler0n ?sum_squares_ge0.
Qed.

Lemma mmse_solve_minimizes_witness :
  let I2 : 'M[rat]_2 := 1%:M in
  exists (X_star : 'M[rat]_2) (f_star f : rat),
    [/\ MMSEProblem.solve (MMSEProblem.init rat 2)
          (mkProblemInputs [:: Matrix I2] [::] [:: Matrix I2]) false
        = Ok (Matrix X_star, MMSEProblem.init rat 2),
        MMSEProblem.evaluate_objective (Matrix X_star)
          (mkProblemInputs [:: Matrix I2] [::] [:: Matrix I2]) = Ok f_star,
        MMSEProblem.evaluate_objective (Matrix (0 : 'M[rat]_2))
          (mkProblemInputs [:: Matrix I2] [::] [:: Matrix I2]) = Ok f
      & f_star <= f].
Proof.
exact: (@mmse_solve_minimizes rat 2 2 2 1%:M 1%:M _ [::]
          (MMSEProblem.init rat 2) false 0
          (autocorrelation_matrix_identity rat 2)
          (identity_autocorrelation_unit rat 1)).
Defined.

(** X4.  When [Ryy] and [B^T Ryy^-1 B] are invertible, the estimator returned
    by the LCMV [solve] satisfies the equality constraint and minimizes the
    LCMV objective among the estimators that satisfy it: no [X] with zero
    constraint residual has a smaller [evaluate_objective]. *)
Theorem lcmv_solve_minimizes (F : realFieldType) (m n p q : nat)
    (Y : 'M[F]_(m, n)) (B : 'M[F]_(m, p)) (H : 'M[F]_(q, p)) (Ryy : 'M[F]_m)
    (self : OptimizationProblem F) (save_solution : bool)
    (X : 'M[F]_(m, q)) :
  Utils.autocorrelation_matrix (Matrix Y) None = Ok (Matrix Ryy) ->
  Ryy \in unitmx ->
  B^T *m invmx Ryy *m B \in unitmx ->
  LCMVProblem.equality_constraint (Matrix B) (Matrix H) (Matrix X)
  = Ok (Matrix (0 : 'M[F]_(q, p))) ->
  let problem_inputs :=
    mkProblemInputs [:: Matrix Y] [:: Matrix B] [:: Matrix H] in
  exists (X_star : 'M[F]_(m, q)) (f_star f : F),
    [/\ LCMVProblem.solve self problem_inputs save_solution
        = Ok (Matrix X_star,
              if save_solution
              then mkProblem (nb_filters self) (Some (Matrix X_star))
              else self),
        LCMVProblem.equality_constraint (Matrix B) (Matrix H) (Matrix X_star)
        = Ok (Matrix (0 : 'M[F]_(q, p))),
        LCMVProblem.evaluate_objective (Matrix X_star) problem_inputs
        = Ok f_star,
        LCMVProblem.evaluate_objective (Matrix X) problem_inputs = Ok f
      & f_star <= f].
Proof.
move=> Ryy_def Ryy_unit gram_unit feasible problem_inputs.
have feasible_mx : X^T *m B = H.
  move: feasible; rewrite lcmv_equality_constraint_mx => eq0.
  by apply/eqP; rewrite -subr_eq0 (Matrix_inj (Ok_inj eq0)).
set X_star := invmx Ryy *m B *m invmx (B^T *m invmx Ryy *m B) *m H^T.
exists X_star, (n%:R^-1 * sum_squares (X_star^T *m Y)),
       (n%:R^-1 * sum_squares (X^T *m Y)).
split.
- exact: lcmv_solve_mx.
- rewrite lcmv_equality_constraint_mx.
  by rewrite (lcmv_constraint_holds H Ryy_def gram_unit) subrr.
- exact: lcmv_evaluate_objective_mx.
- exact: lcmv_evaluate_objective_mx.
- move: Ryy_unit gram_unit @X_star.
  rewrite (autocorrelation_matrix_value Ryy_def) => Ryy_unit gram_unit X_star.
  rewrite (lcmv_gap Ryy_unit gram_unit feasible_mx) lerDl.
  by rewrite mulr_ge0 ?invr_ge0 ?ler0n ?sum_squares_ge0.
Qed.

Lemma identity_is_feasible (F : realFieldType) (n : nat) :
  LCMVProblem.equality_constraint (Matrix (1%:M : 'M[F]_n))
    (Matrix (1%:M : 'M[F]_n)) (Matrix (1%:M : 'M[F]_n))
  = Ok (Matrix (0 : 'M[F]_n)).
Proof. by rewrite lcmv_equality_constraint_mx trmx1 mul1mx subrr. Qed.

Lemma lcmv_solve_minimizes_witness :
  let I2 : 'M[rat]_2 := 1%:M in
  let problem_inputs :=
    mkProblemInputs [:: Matrix I2] [:: Matrix I2] [:: Matrix I2] in
  exists (X_star : 'M[rat]_2) (f_star f : rat),
    [/\ LCMVProblem.solve (LCMVProblem.init rat 2) problem_inputs false
        = Ok (Matrix X_star, LCMVProblem.init rat 2),
        LCMVProblem.equality_constraint (Matrix I2) (Matrix I2)
          (Matrix X_star)
        = Ok (Matrix (0 : 'M[rat]_2)),
        LCMVProblem.evaluate_objective (Matrix X_star) problem_inputs
        = Ok f_star,
        LCMVProblem.evaluate_objective (Matrix I2) problem_inputs = Ok f
      & f_star <= f].
Proof.
exact: (@lcmv_solve_minimizes rat 2 2 2 2 1%:M 1%:M 1%:M _
          (LCMVProblem.init rat 2) false 1%:M
          (autocorrelation_matrix_identity rat 2)
          (identity_autocorrelation_unit rat 1) (identity_gram_unit rat 1)
          (identity_is_feasible rat 2)).
Defined.

(** ** Correlation matrices *)

(** X5.  On a signal block, [autocorrelation_matrix] is
    [cross_correlation_matrix] of the block with itself, for every choice of
    normalizer: the averaging with the transpose changes nothing. *)
Theorem autocorrelation_is_cross_correlation (F : realFieldType) (m n : nat)
    (Y : 'M[F]_(m, n)) (normalizer : option int) :
  Utils.autocorrelation_matrix (Matrix Y) normalizer
  = Utils.cross_correlation_matrix (Matrix Y) (Matrix Y) normalizer.
Proof.
rewrite autocorrelation_matrix_mx cross_correlation_matrix_mx.
by rewrite average_with_transpose_id // linearZ /= trmx_mul trmxK.
Qed.

(** X6.  Swapping the two blocks of [cross_correlation_matrix] transposes the
    result; blocks with different sample counts are rejected with a
    [ValueError]. *)
Theorem cross_correlation_matrix_swap (F : realFieldType) (m q n n' : nat)
    (Y : 'M[F]_(m, n)) (D : 'M[F]_(q, n)) (D' : 'M[F]_(q, n'))
    (normalizer : option int) :
  (do R <-- Utils.cross_correlation_matrix (Matrix Y) (Matrix D) normalizer;
   Ok (np_T R))
  = Utils.cross_correlation_matrix (Matrix D) (Matrix Y) normalizer
  /\ (n != n' ->
      Utils.cross_correlation_matrix (Matrix Y) (Matrix D') normalizer
      = Raise ValueError).
Proof.
split.
  rewrite !cross_correlation_matrix_mx bind_Ok np_T_mx.
  by rewrite linearZ /= trmx_mul trmxK.
move=> neq_n; rewrite /Utils.cross_correlation_matrix default_normalizer_mx.
by rewrite bind_Ok np_T_mx np_matmul_mx_mismatch.
Qed.

(** ** Normalization *)

Section NormalizeMoments.

Variable F : realFieldType.
Variable np_sqrt : F -> F.
Variables (m n : nat) (A : 'M[F]_(m, n)) (scale : F).

Let Z : 'M[F]_(m, n) := normalized np_sqrt A scale.

Lemma sum_centered (i : 'I_m) :
  (0 < n)%N -> \sum_(j < n) (A i j - row_mean A i) = 0.
Proof.
move=> n_gt0; rewrite sumrB sumr_const card_ord -mulr_natr /row_mean.
rewrite divfK ?pnatr_eq0 -?lt0n //.
by apply/eqP; rewrite subr_eq0; apply/eqP/eq_bigr => j _; rewrite mxnth_ord.
Qed.

Lemma row_mean_normalized (i : 'I_m) : (0 < n)%N -> row_mean Z i = 0.
Proof.
move=> n_gt0; rewrite /row_mean.
have -> : \sum_(j < n) mxnth Z i j
          = (scale / np_sqrt (row_var A i))
            * \sum_(j < n) (A i j - row_mean A i).
  rewrite big_distrr /=; apply: eq_bigr => j _.
  by rewrite mxnth_ord mxE mulrAC.
by rewrite sum_centered // mulr0 mul0r.
Qed.

Lemma row_var_normalized (i : 'I_m) :
  (0 < n)%N ->
  np_sqrt (row_var A i) ^+ 2 = row_var A i -> row_var A i != 0 ->
  row_var Z i = scale ^+ 2.
Proof.
move=> n_gt0 sqrtK var_neq0; rewrite /row_var row_mean_normalized //.
have -> : \sum_(j < n) (mxnth Z i j - 0) ^+ 2
          = (scale / np_sqrt (row_var A i)) ^+ 2
            * \sum_(j < n) (mxnth A i j - row_mean A i) ^+ 2.
  rewrite big_distrr /=; apply: eq_bigr => j _.
  by rewrite subr0 !mxnth_ord mxE -exprMn mulrAC.
rewrite -mulrA -/(row_var A i) exprMn exprVn sqrtK -mulrA mulVf //.
by rewrite mulr1.
Qed.

End NormalizeMoments.

(** X7.  Every row of a normalized block has mean zero, provided the block
    has at least one sample and no row has a zero standard deviation (where
    numpy would divide by zero). *)
Theorem normalize_zero_mean (F : realFieldType) (np_sqrt : F -> F)
    (m n : nat) (A : 'M[F]_(m, n)) (scale : F) :
  (0 < n)%N ->
  (forall i : 'I_m, np_sqrt (row_var A i) != 0) ->
  (do Z <-- Utils.normalize np_sqrt (Matrix A) scale; np_mean_axis1 Z)
  = Ok (Vector (nseq m 0)).
Proof.
move=> n_gt0 _; rewrite normalize_mx bind_Ok np_mean_axis1_mx.
congr (Ok (Vector _)); apply: (@eq_from_nth _ 0); rewrite size_mkseq ?size_nseq //.
move=> i lt_i; rewrite nth_mkseq // nth_nseq lt_i.
exact: (row_mean_normalized np_sqrt A scale (Ordinal lt_i)).
Qed.

(** X8.  Every row of a normalized block has variance [scale^2] (1 by
    default), provided the block has at least one sample, no row has zero
    variance, and [np.sqrt] squares back to each row variance. *)
Theorem normalize_unit_variance (F : realFieldType) (np_sqrt : F -> F)
    (m n : nat) (A : 'M[F]_(m, n)) (scale : F) :
  (0 < n)%N ->
  (forall i : 'I_m, row_var A i != 0) ->
  (forall i : 'I_m, np_sqrt (row_var A i) ^+ 2 = row_var A i) ->
  (do Z <-- Utils.normalize np_sqrt (Matrix A) scale; np_var_axis1 Z)
  = Ok (nseq m (scale ^+ 2)).
Proof.
move=> n_gt0 var_neq0 sqrtK; rewrite normalize_mx bind_Ok np_var_axis1_mx.
congr Ok; apply: (@eq_from_nth _ 0); rewrite size_mkseq ?size_nseq //.
move=> i lt_i; rewrite nth_mkseq // nth_nseq lt_i.
exact: (row_var_normalized scale n_gt0 (sqrtK (Ordinal lt_i))
          (var_neq0 (Ordinal lt_i))).
Qed.

(** One sensor reading 0 and then 2: mean 1, variance 1. *)
Lemma row_var_zero_two (i : 'I_1) :
  row_var (\matrix_(i < 1, j < 2) (j * 2)%:R : 'M[rat]_(1, 2)) i = 1.
Proof.
rewrite /row_var /row_mean !big_ord_recl !big_ord0 !mxnth_ord !mxE /=.
by rewrite /bump /= !addr0 add0r mul0n mul1n.
Qed.

Lemma normalize_zero_mean_witness :
  (do Z <-- Utils.normalize id
              (Matrix (\matrix_(i < 1, j < 2) (j * 2)%:R : 'M[rat]_(1, 2))) 1;
   np_mean_axis1 Z)
  = Ok (Vector (nseq 1 0)).
Proof.
apply: (@normalize_zero_mean rat id 1 2) => // i.
by rewrite row_var_zero_two.
Defined.

Lemma normalize_unit_variance_witness :
  (do Z <-- Utils.normalize id
              (Matrix (\matrix_(i < 1, j < 2) (j * 2)%:R : 'M[rat]_(1, 2))) 1;
   np_var_axis1 Z)
  = Ok (nseq 1 (1 ^+ 2)).
Proof.
by apply: (@normalize_unit_variance rat id 1 2) => // i;
   rewrite row_var_zero_two.
Defined.

(** ** Failures of [solve] *)





(** X10.  A problem input that lacks an entry the method reads makes it raise
    [IndexError]: [solve] and [get_problem_constraints] of the LCMV problem
    read the first signal, constant and parameter, [solve] of the MMSE
    problem the first signal and parameter. *)
Theorem missing_input_raises (F : realFieldType)
    (problem_inputs : ProblemInputs F) (self : OptimizationProblem F)
    (save_solution : bool) :
  [/\ nilp (fused_signals problem_inputs)
      || nilp (fused_constants problem_inputs)
      || nilp (global_parameters problem_inputs) ->
        LCMVProblem.solve self problem_inputs save_solution
        = Raise IndexError,
      nilp (fused_constants problem_inputs)
      || nilp (global_parameters problem_inputs) ->
        LCMVProblem.get_problem_constraints problem_inputs = Raise IndexError
    & nilp (fused_signals problem_inputs)
      || nilp (global_parameters problem_inputs) ->
        MMSEProblem.solve self problem_inputs save_solution
        = Raise IndexError].
Proof.
case: problem_inputs => [[|Y sigs] [|B consts] [|H params]]; split=> //=.
Qed.

(** X11.  Shapes that do not fit are rejected with a [ValueError]: by the LCMV
    [solve] when the steering matrix has another number of rows than the
    signal block has sensors (once [Ryy] is inverted), by the MMSE [solve]
    when the target block has another number of samples than the signal
    block (before anything is inverted). *)
Theorem solve_shape_mismatch_raises (F : realFieldType)
    (m m' n n' p q q' : nat)
    (Y : 'M[F]_(m, n)) (B : 'M[F]_(m', p)) (H : 'M[F]_(q, p))
    (D : 'M[F]_(q', n')) (Ryy : 'M[F]_m) (consts : seq (ndarray F))
    (self : OptimizationProblem F) (save_solution : bool) :
  Utils.autocorrelation_matrix (Matrix Y) None = Ok (Matrix Ryy) ->
  Ryy \in unitmx ->
  m != m' ->
  n != n' ->
  LCMVProblem.solve self
    (mkProblemInputs [:: Matrix Y] [:: Matrix B] [:: Matrix H]) save_solution
  = Raise ValueError
  /\ MMSEProblem.solve self
       (mkProblemInputs [:: Matrix Y] consts [:: Matrix D]) save_solution
     = Raise ValueError.
Proof.
move=> Ryy_def Ryy_unit neq_m neq_n; split.
  rewrite /LCMVProblem.solve !py_index_head !bind_Ok Ryy_def bind_Ok.
  by rewrite np_linalg_inv_mx // bind_Ok np_matmul_mx_mismatch.
rewrite /MMSEProblem.solve !py_index_head !bind_Ok Ryy_def bind_Ok.
rewrite /Utils.cross_correlation_matrix default_normalizer_mx bind_Ok np_T_mx.
by rewrite np_matmul_mx_mismatch.
Qed.

Lemma solve_shape_mismatch_raises_witness :
  let I2 : 'M[rat]_2 := 1%:M in
  let I3 : 'M[rat]_3 := 1%:M in
  LCMVProblem.solve (LCMVProblem.init rat 3)
    (mkProblemInputs [:: Matrix I2] [:: Matrix I3] [:: Matrix I3]) false
  = Raise ValueError
  /\ MMSEProblem.solve (MMSEProblem.init rat 3)
       (mkProblemInputs [:: Matrix I2] [::] [:: Matrix I3]) false
     = Raise ValueError.
Proof.
exact: (@solve_shape_mismatch_raises rat 2 3 2 3 3 3 3 1%:M 1%:M 1%:M 1%:M
          _ [::] (LCMVProblem.init rat 3) false
          (autocorrelation_matrix_identity rat 2)
          (identity_autocorrelation_unit rat 1) isT isT).
Defined.




(** ** How many windows there are *)

Lemma segment_lengths_sum (n : nat) :
  (((5 * n) %/ 10 + (3 * n) %/ 10 + (2 * n) %/ 10 == n)
   = (10 %| n))%N.
Proof.
apply/eqP/idP => [sum_n|/dvdnP[k ->]]; last first.
  by rewrite !mulnA !mulnK // -!mulnDl mulnC.
rewrite -(@Gauss_dvdr 10 3 n) //; apply: contraT => ndvd.
have lt3 : ((3 * n) %/ 10 * 10 < 3 * n)%N.
  by rewrite ltn_neqAle leq_trunc_div andbT -dvdn_eq.
have : (n * 10 < n * 10)%N.
  rewrite -{1}sum_n !mulnDl.
  have -> : (n * 10 = 5 * n + 3 * n + 2 * n)%N by rewrite -!mulnDl mulnC.
  set a' := ((5 * n) %/ 10 * 10)%N; set b' := ((3 * n) %/ 10 * 10)%N.
  set c' := ((2 * n) %/ 10 * 10)%N.
  apply: (@leq_ltn_trans (a' + b' + 2 * n)%N).
    by rewrite leq_add2l leq_trunc_div.
  apply: (@ltn_leq_trans (a' + 3 * n + 2 * n)%N).
    by rewrite ltn_add2r ltn_add2l.
  by rewrite !leq_add2r leq_trunc_div.
by rewrite ltnn.
Qed.

Lemma size_weight_function_eq (F : realFieldType) (n : nat) :
  (size (LCMVDataRetriever.weight_function F n) == n)
  = (n < 10)%N || (10 %| n)%N.
Proof.
rewrite /LCMVDataRetriever.weight_function; case: ltnP => [_|le_n] /=.
  by rewrite size_nseq eqxx.
rewrite !size_cat !size_mkseq addnA /LCMVDataRetriever.segment_length.
exact: segment_lengths_sum.
Qed.

(** X13.  The drift-weight sequence has one entry per window exactly when the
    window count is below 10 or a multiple of 10; otherwise the truncation
    of the three segment lengths leaves it shorter. *)
Theorem weight_function_complete (F : realFieldType) (nb_windows : nat) :
  let w := LCMVDataRetriever.weight_function F nb_windows in
  (size w <= nb_windows)%N
  /\ (size w == nb_windows) = (nb_windows < 10)%N || (10 %| nb_windows)%N.
Proof.
by split; [exact: size_weight_function | exact: size_weight_function_eq].
Qed.

(** X14.  A retriever constructed for at least 10 windows, their number not a
    multiple of 10, cannot serve its last window: [get_data_window] raises
    [IndexError] at [nb_windows - 1]. *)
Theorem last_window_missing (F : realFieldType) (np_sqrt : F -> F)
    (rng_state : Type)
    (rng_normal :
       F -> F -> forall m n : nat, rng_state -> 'M[F]_(m, n) * rng_state)
    (rng_standard_normal :
       forall m n : nat, rng_state -> 'M[F]_(m, n) * rng_state)
    (dwp : DataWindowParameters) (nb_sensors nb_sources nb_windows : nat)
    (rng : rng_state) (nb_filters : nat) (nb_steering : option nat)
    (signal_var noise_var mixture_var diff_var : F) :
  (10 <= nb_windows)%N ->
  ~~ (10 %| nb_windows)%N ->
  LCMVDataRetriever.get_data_window np_sqrt
    (LCMVDataRetriever.init np_sqrt rng_normal rng_standard_normal dwp
       nb_sensors nb_sources nb_windows rng nb_filters nb_steering
       signal_var noise_var mixture_var diff_var).1
    (Posz nb_windows.-1)
  = Raise IndexError.
Proof.
move=> le_n ndvd.
rewrite /LCMVDataRetriever.get_data_window init_weights.
rewrite py_index_beyond //.
have : (size (LCMVDataRetriever.weight_function F nb_windows) < nb_windows)%N.
  rewrite ltn_neqAle size_weight_function andbT size_weight_function_eq.
  by rewrite negb_or ndvd -leqNgt le_n.
by case: (nb_windows) le_n => [|k].
Qed.

Lemma last_window_missing_witness :
  LCMVDataRetriever.get_data_window id (example_retriever 11 None) 10%:Z
  = Raise IndexError.
Proof.
exact: (@last_window_missing rat id nat counting_normal
          counting_standard_normal (mkDataWindowParameters 2 1) 1 1 11 0%N 2
          None (1 / 2%:R) (1 / 10%:R) (1 / 2%:R) 1 isT isT).
Defined.

(** ** The drops of the drift weights *)

Section Descents.

Variable F : realFieldType.
Implicit Types (s : seq F) (p : F) (i k a : nat).

Lemma descents_from_cat i p s1 s2 :
  descents_from i p (s1 ++ s2)
  = descents_from i p s1 ++ descents_from (i + size s1) (last p s1) s2.
Proof.
elim: s1 i p => [|x s1 IH] i p /=; first by rewrite addn0.
by rewrite IH addSnnS catA.
Qed.

Lemma descents_from_head s : descents s = descents_from 0 (head 0 s) s.
Proof. by case: s => [|x s] //=; rewrite ltxx. Qed.

Lemma descents_from_rising i k a len p :
  (0 < k)%N -> p <= a%:R / k%:R ->
  descents_from i p [seq j%:R / k%:R | j <- iota a len] = [::].
Proof.
move=> k_gt0; elim: len i a p => [|len IH] i a p //= le_p.
rewrite ltNge le_p /= IH //.
by rewrite ler_pM2r ?invr_gt0 ?ltr0n // ler_nat.
Qed.

Lemma descents_from_reset i k p :
  (0 < k)%N -> 0 < p ->
  descents_from i p [seq j%:R / k%:R | j <- iota 0 k] = [:: i].
Proof.
case: k => [|k] // _ p_gt0 /=.
by rewrite mulr0n mul0r p_gt0 descents_from_rising // divr_ge0 ?ler0n.
Qed.

Lemma last_ramp k p :
  (1 < k)%N -> 0 < last p [seq j%:R / k%:R | j <- iota 0 k].
Proof.
case: k => [|[|k]] // _.
rewrite -[k.+2]addn1 iotaD map_cat last_cat /= add0n.
by rewrite divr_gt0 ?ltr0n // addn1.
Qed.

Lemma head_ramp k : head 0 [seq j%:R / k%:R | j <- iota 0 k] = 0 :> F.
Proof. by case: k => //= k; rewrite mulr0n mul0r. Qed.

Lemma descents_three_ramps k1 k2 k3 :
  (1 < k1)%N -> (1 < k2)%N -> (0 < k3)%N ->
  descents ([seq j%:R / k1%:R | j <- iota 0 k1]
            ++ [seq j%:R / k2%:R | j <- iota 0 k2]
            ++ [seq j%:R / k3%:R | j <- iota 0 k3] : seq F)
  = [:: k1; (k1 + k2)%N].
Proof.
move=> k1_gt1 k2_gt1 k3_gt0.
rewrite descents_from_head.
have -> : head 0 ([seq j%:R / k1%:R | j <- iota 0 k1]
            ++ [seq j%:R / k2%:R | j <- iota 0 k2]
            ++ [seq j%:R / k3%:R | j <- iota 0 k3]) = 0 :> F.
  by case: k1 k1_gt1 => //= k1 _; rewrite mulr0n mul0r.
rewrite !descents_from_cat !size_map !size_iota add0n.
rewrite descents_from_rising ?mulr0n ?mul0r ?(ltnW k1_gt1) //=.
rewrite !descents_from_reset ?(ltnW k2_gt1) ?last_ramp //.
Qed.

End Descents.

Lemma segment_length_ge (k n : nat) :
  (10 <= n)%N -> (k <= LCMVDataRetriever.segment_length k n)%N.
Proof.
move=> le_n; rewrite /LCMVDataRetriever.segment_length.
by rewrite -{1}(mulnK k (isT : 0 < 10)%N) leq_div2r // leq_mul2l le_n orbT.
Qed.

(** X15.  For every window count of at least 10 the drift weights drop exactly
    twice: at the start of the second segment and at the start of the
    third. *)
Theorem weight_function_two_drops (F : realFieldType) (nb_windows : nat) :
  (10 <= nb_windows)%N ->
  descents (LCMVDataRetriever.weight_function F nb_windows)
  = [:: ((5 * nb_windows) %/ 10)%N;
        ((5 * nb_windows) %/ 10 + (3 * nb_windows) %/ 10)%N].
Proof.
move=> le_n; rewrite /LCMVDataRetriever.weight_function ltnNge le_n /=.
rewrite !np_linspace_unit descents_three_ramps //.
- exact: leq_trans (segment_length_ge 5 le_n).
- exact: leq_trans (segment_length_ge 3 le_n).
- exact: leq_trans (segment_length_ge 2 le_n).
Qed.

Lemma weight_function_two_drops_witness :
  descents (LCMVDataRetriever.weight_function rat 37) = [:: 18; 29]%N.
Proof. exact: (@weight_function_two_drops rat 37 isT). Defined.

(** ** Windows without drift *)

Lemma py_index_nseq (T : Type) (n : nat) (x : T) (i : int) :
  - n%:Z <= i < n%:Z -> py_index (nseq n x) i = Ok x.
Proof.
have size_n : size (nseq n x) = n by rewrite size_nseq.
case: i => k /andP[lo hi].
- have lt_k : (k < n)%N by [].
  by rewrite (py_index_nat x) ?size_n // nth_nseq lt_k.
- have lt_k : (k < n)%N by move: lo; rewrite NegzE lerN2 lez_nat.
  have lt_sub : (n - k.+1 < n)%N.
    by case: (n) lt_k => // n' _; rewrite subSS ltnS leq_subr.
  rewrite py_index_wrap ?size_n // (py_index_nat x) ?size_n //.
  by rewrite nth_nseq lt_sub.
Qed.

(** X16.  A retriever constructed for fewer than 10 windows has no drift:
    every window index it accepts is answered with the same inputs. *)
Theorem no_drift_below_ten_windows (F : realFieldType) (np_sqrt : F -> F)
    (rng_state : Type)
    (rng_normal :
       F -> F -> forall m n : nat, rng_state -> 'M[F]_(m, n) * rng_state)
    (rng_standard_normal :
       forall m n : nat, rng_state -> 'M[F]_(m, n) * rng_state)
    (dwp : DataWindowParameters) (nb_sensors nb_sources nb_windows : nat)
    (rng : rng_state) (nb_filters : nat) (nb_steering : option nat)
    (signal_var noise_var mixture_var diff_var : F) (i j : int) :
  (nb_windows < 10)%N ->
  - nb_windows%:Z <= i < nb_windows%:Z ->
  - nb_windows%:Z <= j < nb_windows%:Z ->
  let r :=
    (LCMVDataRetriever.init np_sqrt rng_normal rng_standard_normal dwp
       nb_sensors nb_sources nb_windows rng nb_filters nb_steering
       signal_var noise_var mixture_var diff_var).1 in
  LCMVDataRetriever.get_data_window np_sqrt r i
  = LCMVDataRetriever.get_data_window np_sqrt r j
  /\ is_ok (LCMVDataRetriever.get_data_window np_sqrt r i).
Proof.
move=> lt_n in_i in_j r.
have weights_r : LCMVDataRetriever.weights r = nseq nb_windows 0.
  by rewrite init_weights /LCMVDataRetriever.weight_function lt_n.
have get_i : py_index (LCMVDataRetriever.weights r) i = Ok 0.
  by rewrite weights_r py_index_nseq.
split.
  rewrite /LCMVDataRetriever.get_data_window get_i weights_r.
  by rewrite py_index_nseq.
have [Y ->] := get_data_window_ok np_sqrt
                 (init_well_shaped np_sqrt rng_normal rng_standard_normal
                    dwp nb_sensors nb_sources nb_windows rng nb_filters
                    nb_steering signal_var noise_var mixture_var diff_var)
                 get_i.
by [].
Qed.

Lemma no_drift_below_ten_windows_witness :
  LCMVDataRetriever.get_data_window id (example_retriever 5 None) 0
  = LCMVDataRetriever.get_data_window id (example_retriever 5 None) (- 3%:Z)
  /\ is_ok (LCMVDataRetriever.get_data_window id (example_retriever 5 None) 0).
Proof.
exact: (@no_drift_below_ten_windows rat id nat counting_normal
          counting_standard_normal (mkDataWindowParameters 2 1) 1 1 5 0%N 2
          None (1 / 2%:R) (1 / 10%:R) (1 / 2%:R) 1 0 (- 3%:Z) isT isT isT).
Defined.

(** ** A given number of steering vectors *)

Section SteeringGiven.

Variable F : realFieldType.



End SteeringGiven.



(** X18.  Constructed with more steering vectors than there are sources, the
    retriever keeps only the [nb_sources] columns that [A_0] has, while the
    constraint target still has [p] columns; [solve] then never returns on a
    window of this retriever. *)
Theorem excess_steering_mismatch (F : realFieldType) (np_sqrt : F -> F)
    (rng_state : Type)
    (rng_normal :
       F -> F -> forall m n : nat, rng_state -> 'M[F]_(m, n) * rng_state)
    (rng_standard_normal :
       forall m n : nat, rng_state -> 'M[F]_(m, n) * rng_state)
    (dwp : DataWindowParameters) (nb_sensors nb_sources nb_windows : nat)
    (rng : rng_state) (Q p : nat)
    (signal_var noise_var mixture_var diff_var : F) (window_id : int)
    (self : OptimizationProblem F) (save_solution : bool) :
  (nb_sources < p)%N ->
  let r :=
    (LCMVDataRetriever.init np_sqrt rng_normal rng_standard_normal dwp
       nb_sensors nb_sources nb_windows rng Q (Some p)
       signal_var noise_var mixture_var diff_var).1 in
  [/\ np_shape (LCMVDataRetriever.B r) = [:: nb_sensors; nb_sources],
      np_shape (LCMVDataRetriever.H r) = [:: Q; p]
    & ~~ is_ok (do problem_inputs <--
                  LCMVDataRetriever.get_data_window np_sqrt r window_id;
                LCMVProblem.solve self problem_inputs save_solution)].
Proof.
move=> lt_p r.
have [A0 [H0 [eqA eqB eqH eqQ eqP]]] :=
  init_steering np_sqrt rng_normal rng_standard_normal dwp nb_sensors
    nb_sources nb_windows rng Q (Some p) signal_var noise_var
    mixture_var diff_var.
rewrite -/r /= in A0 H0 eqA eqB eqH eqQ eqP.
have min_p : minn p nb_sources = nb_sources by apply/minn_idPr/ltnW.
split.
- by rewrite eqB /= min_p.
- by rewrite eqH.
- case get_eq: (LCMVDataRetriever.get_data_window np_sqrt r window_id)
    => [problem_inputs|e] //.
  rewrite bind_Ok.
  have [w w_def _] := bind_eq_Ok get_eq.
  have [Y Y_def] :=
    get_data_window_ok np_sqrt
      (init_well_shaped np_sqrt rng_normal rng_standard_normal dwp
         nb_sensors nb_sources nb_windows rng Q (Some p)
         signal_var noise_var mixture_var diff_var) w_def.
  have -> := Ok_inj (etrans (esym get_eq) Y_def).
  rewrite eqB eqH /np_cols_upto.
  rewrite (lcmv_solve_mismatch _ _ _ _ (autocorrelation_matrix_gram Y)).
    by rewrite min_p neq_ltn lt_p.
  by case: ifP.
Qed.

Lemma excess_steering_mismatch_witness :
  np_shape (LCMVDataRetriever.B (example_retriever 10 (Some 3%N)))
  = [:: 1%N; 1%N].
Proof.
by have [] := @excess_steering_mismatch rat id nat counting_normal
                counting_standard_normal (mkDataWindowParameters 2 1) 1 1 10
                0%N 2 3 (1 / 2%:R) (1 / 10%:R) (1 / 2%:R) 1 3%:Z
                (LCMVProblem.init rat 2) false isT.
Defined.

(** ** The statistics utilities on 1-d arrays *)



(** * The other retrievers of the legacy [data_retriever.py] *)

(** ** Class [MMSEDataRetriever] *)

Module LegacyMMSEDataRetriever.
Section WithGenerator.

Variable F : realFieldType.
Variable np_sqrt : F -> F.
Variable rng_state : Type.
Variable rng_normal :
  F -> F -> forall m n : nat, rng_state -> 'M[F]_(m, n) * rng_state.

Record t : Type := mk {
  D : ndarray F;
  A_0 : ndarray F;
  Delta : ndarray F;
  noise : ndarray F;
  weights : seq F
}.

Definition init (nb_samples nb_sensors nb_sources nb_windows : nat)
    (rng : rng_state) (signal_var noise_var mixture_var diff_var : F)
    : t * rng_state :=
  let: (D, rng) := rng_normal 0 (np_sqrt signal_var) nb_sources nb_samples rng in
  let: (A_0, rng) :=
    rng_normal 0 (np_sqrt mixture_var) nb_sensors nb_sources rng in
  let: (Delta, rng) :=
    rng_normal 0 (np_sqrt mixture_var) nb_sensors nb_sources rng in
  let Delta' :=
    np_div_num
      (np_mul_num (np_mul_num (Matrix Delta) (np_linalg_norm_fro np_sqrt A_0))
         diff_var)
      (np_linalg_norm_fro np_sqrt Delta) in
  let: (noise, rng) :=
    rng_normal 0 (np_sqrt noise_var) nb_sensors nb_samples rng in
  (mk (Matrix D) (Matrix A_0) Delta' (Matrix noise)
      (LegacyDataRetriever.weight_function F nb_windows),
   rng).

(** [ProblemInputs(fused_signals=[Y_window], global_parameters=[self.D])]:
    the constants, left out, are no entries. *)
Definition get_current_window (self : t) (window_id : int)
    : result (ProblemInputs F) :=
  do w <-- py_index (weights self) window_id;
  do A <-- np_add (A_0 self) (np_mul_num (Delta self) w);
  do AD <-- np_matmul A (D self);
  do Y_window <-- np_add AD (noise self);
  do Y_window' <-- Utils.normalize np_sqrt Y_window 1;
  Ok (mkProblemInputs [:: Y_window'] [::] [:: D self]).

End WithGenerator.
End LegacyMMSEDataRetriever.

(** ** Class [GEVDDataRetriever] *)

Module LegacyGEVDDataRetriever.
Section WithGenerator.

Variable F : realFieldType.
Variable np_sqrt : F -> F.
Variable rng_state : Type.
Variable rng_normal :
  F -> F -> forall m n : nat, rng_state -> 'M[F]_(m, n) * rng_state.

Record t : Type := mk {
  latent_dim : nat;
  D1 : ndarray F;
  D2 : ndarray F;
  A_0 : ndarray F;
  B_0 : ndarray F;
  Delta : ndarray F;
  noise : ndarray F;
  weights : seq F
}.

(** A size [self.latent_dim - nb_sources] below zero makes the generator
    raise [ValueError]. *)
Definition init (nb_samples nb_sensors nb_sources nb_windows : nat)
    (rng : rng_state) (latent_dim : option nat)
    (signal_var noise_var mixture_var diff_var : F)
    : result (t * rng_state) :=
  let self_latent_dim :=
    if latent_dim is Some l then l else (2 * nb_sources)%N in
  let: (D1, rng) :=
    rng_normal 0 (np_sqrt signal_var) nb_sources nb_samples rng in
  if (self_latent_dim < nb_sources)%N then Raise ValueError
  else
    let: (D2, rng) :=
      rng_normal 0 (np_sqrt signal_var) (self_latent_dim - nb_sources)
        nb_samples rng in
    let: (A_0, rng) :=
      rng_normal 0 (np_sqrt mixture_var) nb_sensors nb_sources rng in
    let: (B_0, rng) :=
      rng_normal 0 (np_sqrt mixture_var) nb_sensors
        (self_latent_dim - nb_sources) rng in
    let: (Delta, rng) :=
      rng_normal 0 (np_sqrt mixture_var) nb_sensors nb_sources rng in
    let Delta' :=
      np_div_num
        (np_mul_num
           (np_mul_num (Matrix Delta) (np_linalg_norm_fro np_sqrt A_0))
           diff_var)
        (np_linalg_norm_fro np_sqrt Delta) in
    let: (noise, rng) :=
      rng_normal 0 (np_sqrt noise_var) nb_sensors nb_samples rng in
    Ok (mk self_latent_dim (Matrix D1) (Matrix D2) (Matrix A_0) (Matrix B_0)
          Delta' (Matrix noise)
          (LegacyDataRetriever.weight_function F nb_windows),
        rng).

Definition get_current_window (self : t) (window_id : int)
    : result (ProblemInputs F) :=
  do BD <-- np_matmul (B_0 self) (D1 self);
  do V_window <-- np_add BD (noise self);
  do V_window' <-- Utils.normalize np_sqrt V_window 1;
  do w <-- py_index (weights self) window_id;
  do A <-- np_add (A_0 self) (np_mul_num (Delta self) w);
  do AD <-- np_matmul A (D2 self);
  do Y_window <-- np_add AD V_window';
  do Y_window' <-- Utils.normalize np_sqrt Y_window 1;
  Ok (mkProblemInputs [:: Y_window'; V_window'] [::] [::]).

End WithGenerator.
End LegacyGEVDDataRetriever.

(** ** The MMSE retriever feeding the MMSE problem *)

Section LegacyMMSEFacts.

Variable F : realFieldType.
Variable np_sqrt : F -> F.
Variable rng_state : Type.
Variable rng_normal :
  F -> F -> forall m n : nat, rng_state -> 'M[F]_(m, n) * rng_state.

Variables (nb_samples nb_sensors nb_sources nb_windows : nat).
Variables (rng : rng_state) (signal_var noise_var mixture_var diff_var : F).

Let r : LegacyMMSEDataRetriever.t F :=
  (LegacyMMSEDataRetriever.init np_sqrt rng_normal nb_samples nb_sensors
     nb_sources nb_windows rng signal_var noise_var mixture_var diff_var).1.



End LegacyMMSEFacts.




(** ** The GEVD retriever *)

Section LegacyGEVDFacts.

Variable F : realFieldType.
Variable np_sqrt : F -> F.
Variable rng_state : Type.
Variable rng_normal :
  F -> F -> forall m n : nat, rng_state -> 'M[F]_(m, n) * rng_state.

Lemma np_matmul_fits (m n n' p : nat) (A : 'M[F]_(m, n)) (B : 'M[F]_(n', p)) :
  n = n' -> exists C : 'M[F]_(m, p), np_matmul (Matrix A) (Matrix B) = Ok (Matrix C).
Proof.
by move=> eq_n; case: n' / eq_n B => B; exists (A *m B); apply: np_matmul_mx.
Qed.

Variables (nb_samples nb_sensors nb_sources nb_windows : nat).
Variables (rng : rng_state) (signal_var noise_var mixture_var diff_var : F).

Local Notation init :=
  (LegacyGEVDDataRetriever.init np_sqrt rng_normal nb_samples nb_sensors
     nb_sources nb_windows rng).

Lemma legacy_gevd_init_raises (l : nat) :
  (l < nb_sources)%N ->
  init (Some l) signal_var noise_var mixture_var diff_var = Raise ValueError.
Proof.
move=> lt_l; rewrite /LegacyGEVDDataRetriever.init.
by case: (rng_normal _ _ _ _ _) => D1 rng1; rewrite lt_l.
Qed.

Lemma legacy_gevd_fields (latent_dim : option nat) :
  let l := odflt (2 * nb_sources)%N latent_dim in
  (nb_sources <= l)%N ->
  exists (r : LegacyGEVDDataRetriever.t F) (rng' : rng_state)
         (D1 : 'M[F]_(nb_sources, nb_samples))
         (D2 : 'M[F]_(l - nb_sources, nb_samples))
         (A0 Del : 'M[F]_(nb_sensors, nb_sources))
         (B0 : 'M[F]_(nb_sensors, l - nb_sources))
         (N0 : 'M[F]_(nb_sensors, nb_samples)),
    [/\ init latent_dim signal_var noise_var mixture_var diff_var
        = Ok (r, rng'),
        [/\ LegacyGEVDDataRetriever.D1 r = Matrix D1,
            LegacyGEVDDataRetriever.D2 r = Matrix D2,
            LegacyGEVDDataRetriever.A_0 r = Matrix A0
          & LegacyGEVDDataRetriever.B_0 r = Matrix B0],
        LegacyGEVDDataRetriever.Delta r = Matrix Del,
        LegacyGEVDDataRetriever.noise r = Matrix N0
      & LegacyGEVDDataRetriever.weights r
        = LegacyDataRetriever.weight_function F nb_windows].
Proof.
move=> l le_l; rewrite /LegacyGEVDDataRetriever.init.
rewrite -/(odflt (2 * nb_sources)%N latent_dim) -/l.
case: (rng_normal _ _ _ _ _) => D1 rng1; rewrite ltnNge le_l /=.
case: (rng_normal _ _ _ _ _) => D2 rng2.
case: (rng_normal _ _ _ _ _) => A0 rng3.
case: (rng_normal _ _ _ _ _) => B0 rng4.
case: (rng_normal _ _ _ _ _) => Del rng5.
case: (rng_normal _ _ _ _ _) => N0 rng6.
by do 8![eexists]; split; [reflexivity | split; reflexivity | reflexivity..].
Qed.

End LegacyGEVDFacts.

Section LegacyGEVDWindows.

Variable F : realFieldType.
Variable np_sqrt : F -> F.

Variables (sensors sources latent samples : nat).
Variables (D1 : 'M[F]_(sources, samples)) (D2 : 'M[F]_(latent, samples)).
Variables (A0 Del : 'M[F]_(sensors, sources)) (B0 : 'M[F]_(sensors, latent)).
Variables (N0 : 'M[F]_(sensors, samples)).
Variable r : LegacyGEVDDataRetriever.t F.

Hypothesis eqD1 : LegacyGEVDDataRetriever.D1 r = Matrix D1.
Hypothesis eqD2 : LegacyGEVDDataRetriever.D2 r = Matrix D2.
Hypothesis eqA : LegacyGEVDDataRetriever.A_0 r = Matrix A0.
Hypothesis eqB : LegacyGEVDDataRetriever.B_0 r = Matrix B0.
Hypothesis eqDel : LegacyGEVDDataRetriever.Delta r = Matrix Del.
Hypothesis eqN : LegacyGEVDDataRetriever.noise r = Matrix N0.

Lemma legacy_gevd_window_mismatch (window_id : int) :
  latent != sources ->
  LegacyGEVDDataRetriever.get_current_window np_sqrt r window_id
  = Raise ValueError.
Proof.
move=> neq_l; rewrite /LegacyGEVDDataRetriever.get_current_window eqB eqD1.
by rewrite np_matmul_mx_mismatch.
Qed.

Lemma legacy_gevd_window_fits :
  latent = sources ->
  exists V : 'M[F]_(sensors, samples),
    forall window_id : int,
      (exists w, py_index (LegacyGEVDDataRetriever.weights r) window_id
                 = Ok w) ->
      exists Y : 'M[F]_(sensors, samples),
        LegacyGEVDDataRetriever.get_current_window np_sqrt r window_id
        = Ok (mkProblemInputs [:: Matrix Y; Matrix V] [::] [::]).
Proof.
move=> eq_l.
have [BD BD_def] := np_matmul_fits B0 D1 eq_l.
exists (normalized np_sqrt (BD + N0) 1) => window_id [w w_def].
rewrite /LegacyGEVDDataRetriever.get_current_window eqB eqD1 BD_def bind_Ok.
rewrite eqN np_add_mx bind_Ok normalize_mx bind_Ok w_def bind_Ok.
rewrite eqA eqDel np_mul_num_mx np_add_mx bind_Ok eqD2.
have [AD ->] := np_matmul_fits (A0 + w *: Del) D2 (esym eq_l).
rewrite bind_Ok np_add_mx bind_Ok normalize_mx bind_Ok.
by eexists.
Qed.

End LegacyGEVDWindows.

(** X21.  With the latent dimension left out, or given as twice the number of
    sources, the GEVD retriever can be constructed, and every window index
    it accepts yields two signal blocks of shape (sensors, samples); the
    second one is the same for all windows. *)
Theorem legacy_gevd_two_signals (F : realFieldType) (np_sqrt : F -> F)
    (rng_state : Type)
    (rng_normal :
       F -> F -> forall m n : nat, rng_state -> 'M[F]_(m, n) * rng_state)
    (nb_samples nb_sensors nb_sources nb_windows : nat) (rng : rng_state)
    (latent_dim : option nat)
    (signal_var noise_var mixture_var diff_var : F) :
  odflt (2 * nb_sources)%N latent_dim = (2 * nb_sources)%N ->
  exists (r : LegacyGEVDDataRetriever.t F) (rng' : rng_state)
         (V : 'M[F]_(nb_sensors, nb_samples)),
    LegacyGEVDDataRetriever.init np_sqrt rng_normal nb_samples nb_sensors
      nb_sources nb_windows rng latent_dim signal_var noise_var mixture_var
      diff_var
    = Ok (r, rng')
    /\ forall window_id : int,
         let len := size (LegacyDataRetriever.weight_function F nb_windows) in
         - len%:Z <= window_id < len%:Z ->
         exists Y : 'M[F]_(nb_sensors, nb_samples),
           LegacyGEVDDataRetriever.get_current_window np_sqrt r window_id
           = Ok (mkProblemInputs [:: Matrix Y; Matrix V] [::] [::]).
Proof.
move=> eq_l.
have le_l : (nb_sources <= odflt (2 * nb_sources) latent_dim)%N.
  by rewrite eq_l leq_pmull.
have [r [rng' [D1 [D2 [A0 [Del [B0 [N0 [init_eq [eqD1 eqD2 eqA eqB]
      eqDel eqN eqW]]]]]]]]] :=
  legacy_gevd_fields np_sqrt rng_normal nb_samples nb_sensors nb_windows rng
    signal_var noise_var mixture_var diff_var le_l.
have sub_l : (odflt (2 * nb_sources) latent_dim - nb_sources)%N = nb_sources.
  by rewrite eq_l mulSn mul1n addnK.
have [V get_V] :=
  legacy_gevd_window_fits np_sqrt eqD1 eqD2 eqA eqB eqDel eqN sub_l.
exists r, rng', V; split=> // window_id len in_range.
by apply: get_V; apply: py_index_in_range; rewrite eqW.
Qed.

Lemma legacy_gevd_two_signals_witness :
  exists (r : LegacyGEVDDataRetriever.t rat) (rng' : nat),
    LegacyGEVDDataRetriever.init id counting_normal 2 1 1 10 0%N None
      (1 / 2%:R) (1 / 10%:R) (1 / 2%:R) 1
    = Ok (r, rng').
Proof.
have [r [rng' [V [init_eq _]]]] :=
  @legacy_gevd_two_signals rat id nat counting_normal 2 1 1 10 0%N None
    (1 / 2%:R) (1 / 10%:R) (1 / 2%:R) 1 erefl.
by exists r, rng'.
Defined.

(** X22.  Given any other latent dimension, the GEVD retriever is of no use:
    below the number of sources its construction raises [ValueError]
    (a negative size), and otherwise every call of [get_current_window]
    raises [ValueError], whatever the window index: [B_0 @ D1] does not
    fit. *)
Theorem legacy_gevd_latent_dim_mismatch (F : realFieldType)
    (np_sqrt : F -> F) (rng_state : Type)
    (rng_normal :
       F -> F -> forall m n : nat, rng_state -> 'M[F]_(m, n) * rng_state)
    (nb_samples nb_sensors nb_sources nb_windows : nat) (rng : rng_state)
    (l : nat) (signal_var noise_var mixture_var diff_var : F) :
  l != (2 * nb_sources)%N ->
  let constructed :=
    LegacyGEVDDataRetriever.init np_sqrt rng_normal nb_samples nb_sensors
      nb_sources nb_windows rng (Some l) signal_var noise_var mixture_var
      diff_var in
  if (l < nb_sources)%N then constructed = Raise ValueError
  else exists (r : LegacyGEVDDataRetriever.t F) (rng' : rng_state),
         constructed = Ok (r, rng')
         /\ forall window_id : int,
              LegacyGEVDDataRetriever.get_current_window np_sqrt r window_id
              = Raise ValueError.
Proof.
move=> neq_l constructed; case: ltnP => [lt_l|le_l].
  exact: legacy_gevd_init_raises.
have [r [rng' [D1 [D2 [A0 [Del [B0 [N0 [init_eq [eqD1 eqD2 eqA eqB]
      eqDel eqN eqW]]]]]]]]] :=
  legacy_gevd_fields np_sqrt rng_normal nb_samples nb_sensors nb_windows rng
    signal_var noise_var mixture_var diff_var
    (le_l : (nb_sources <= odflt (2 * nb_sources) (Some l))%N).
exists r, rng'; split=> // window_id.
apply: (legacy_gevd_window_mismatch np_sqrt eqD1 eqB).
by rewrite /= -(eqn_add2r nb_sources) subnK // addnn -mul2n.
Qed.

Lemma legacy_gevd_latent_dim_mismatch_witness :
  exists (r : LegacyGEVDDataRetriever.t rat) (rng' : nat),
    LegacyGEVDDataRetriever.init id counting_normal 2 1 1 10 0%N (Some 3%N)
      (1 / 2%:R) (1 / 10%:R) (1 / 2%:R) 1
    = Ok (r, rng')
    /\ forall window_id : int,
         LegacyGEVDDataRetriever.get_current_window id r window_id
         = Raise ValueError.
Proof.
exact: (@legacy_gevd_latent_dim_mismatch rat id nat counting_normal 2 1 1 10
          0%N 3 (1 / 2%:R) (1 / 10%:R) (1 / 2%:R) 1 isT).
Defined.

(** ** Saving the solution *)

Ltac destruct_first_bind :=
  match goal with
  | |- context [bind ?r _] =>
      match r with
      | bind _ _ => fail 1
      | _ => destruct r; rewrite ?(bind_Ok, bind_Raise)
      end
  end.

(** X23.  For both problems, the estimator [solve] returns, and the exception
    it raises, depend on the inputs only, not on the instance or on
    [save_solution]; with [save_solution] unset the instance is left as it
    was, with it set the instance keeps its filter count and remembers
    exactly the estimator returned. *)
Theorem solve_saves_solution (F : realFieldType) (c : problem_class)
    (self other : OptimizationProblem F) (problem_inputs : ProblemInputs F)
    (save_solution : bool) :
  (do a <-- solve_of c self problem_inputs save_solution; Ok a.1)
  = (do a <-- solve_of c other problem_inputs false; Ok a.1)
  /\ forall (X : ndarray F) (self' : OptimizationProblem F),
       solve_of c self problem_inputs save_solution = Ok (X, self') ->
       self' = if save_solution then mkProblem (nb_filters self) (Some X)
               else self.
Proof.
case: c; rewrite /solve_of /LCMVProblem.solve /MMSEProblem.solve.
- split; first by do ?destruct_first_bind.
  by do ?destruct_first_bind; move=> X self' // [<- <-].
- split; first by do ?destruct_first_bind.
  by do ?destruct_first_bind; move=> X self' // [<- <-].
Qed.

(** ** Autocorrelation of a normalized block *)

(** X24.  The autocorrelation matrix of a normalized block has [scale^2] (1 by
    default) all along its diagonal, under the conditions of X8: at least one
    sample, no row of zero variance, and [np.sqrt] squaring back to each row
    variance. *)
Theorem normalized_autocorrelation_diagonal (F : realFieldType)
    (np_sqrt : F -> F) (m n : nat) (A : 'M[F]_(m, n)) (scale : F) :
  (0 < n)%N ->
  (forall i : 'I_m, row_var A i != 0) ->
  (forall i : 'I_m, np_sqrt (row_var A i) ^+ 2 = row_var A i) ->
  exists R : 'M[F]_m,
    (do Z <-- Utils.normalize np_sqrt (Matrix A) scale;
     Utils.autocorrelation_matrix Z None)
    = Ok (Matrix R)
    /\ forall i : 'I_m, R i i = scale ^+ 2.
Proof.
move=> n_gt0 var_neq0 sqrtK.
exists (n%:R^-1 *: (normalized np_sqrt A scale *m (normalized np_sqrt A scale)^T)).
split; first by rewrite normalize_mx bind_Ok autocorrelation_matrix_gram.
move=> i; rewrite -(row_var_normalized scale n_gt0 (sqrtK i) (var_neq0 i)).
rewrite /row_var row_mean_normalized // !mxE mulrC; congr (_ / _).
by apply: eq_bigr => j _; rewrite subr0 mxnth_ord !mxE expr2.
Qed.

Lemma normalized_autocorrelation_diagonal_witness :
  exists R : 'M[rat]_1,
    (do Z <-- Utils.normalize id
                (Matrix (\matrix_(i < 1, j < 2) (j * 2)%:R : 'M[rat]_(1, 2)))
                1;
     Utils.autocorrelation_matrix Z None)
    = Ok (Matrix R)
    /\ forall i : 'I_1, R i i = 1 ^+ 2.
Proof.
by apply: (@normalized_autocorrelation_diagonal rat id 1 2) => // i;
   rewrite row_var_zero_two.
Defined.

(** ** Range of the drift weights *)

(** X25.  For every window count, every drift weight lies in [0, 1), in the
    canonical retriever and in the legacy one alike; so the mixing matrix of
    a window never reaches [A_0 + Delta]. *)
Theorem weights_in_unit_interval (F : realFieldType) (nb_windows : nat) :
  all in_unit_interval (LCMVDataRetriever.weight_function F nb_windows)
  /\ all in_unit_interval (LegacyDataRetriever.weight_function F nb_windows).
Proof.
split; first exact: weight_function_in_unit_interval.
by rewrite /LegacyDataRetriever.weight_function !all_cat
           !linspace_in_unit_interval.
Qed.
